(** * Chat platform backend: turn orchestration, credential vault, agent factory

    A shallow embedding of [backend/app]: the SQLAlchemy models
    ([models.py]), the credential vault ([services/encryption.py]), the agent
    factory ([services/ai_service.py]), the conversation routes
    ([routes/conversations.py]) and the two chat routes ([routes/chat.py]),
    followed by the properties of the turn pipeline.

    Conventions.  A Python [str] is a list of code points, [bytes] a list of
    octets.  A call that can raise returns a [Result]; code that reads or
    writes the database session runs in the monad [M], which threads the
    session and stops at the first exception.  An async generator is a
    state machine stepped by [anext]. *)

From Stdlib Require Import ZArith NArith List String Ascii Bool Lia.
From Stdlib Require Import Sorted Permutation.
Import ListNotations.

Set Implicit Arguments.

(* ================================================================= *)
(** ** Python values *)

(** [str]: a sequence of Unicode code points. *)
Definition str := list N.

(** [bytes]: a sequence of octets, each below 256. *)
Definition bytes := list N.

(** A string literal of the source. *)
Definition lit (s : string) : str := map N_of_ascii (list_ascii_of_string s).
Arguments lit s%_string.

(** [a == b] on [str]. *)
Fixpoint str_eqb (a b : str) : bool :=
  match a, b with
  | [], [] => true
  | x :: a', y :: b' => N.eqb x y && str_eqb a' b'
  | _, _ => false
  end.

(** [needle in haystack] on [str], as a proposition. *)
Definition contains (haystack needle : str) : Prop :=
  exists before after, haystack = before ++ needle ++ after.

(** [x or default] for an optional string: [None] and [""] are falsy. *)
Definition or_default (x : option str) (default : str) : str :=
  match x with
  | Some (c :: s) => c :: s
  | Some [] | None => default
  end.

(** The detail payload of an [HTTPException]: either a text, or the f-string
    [f"No API key configured for {conversation.provider}"], kept symbolic in
    the provider. *)
Inductive ProviderEnum := OPENAI | ANTHROPIC.

Inductive Detail :=
| Text (s : str)
| No_API_key_configured_for (p : ProviderEnum).

(** The exceptions that occur in the modelled code.  [HTTPException] is what
    a route raises on purpose; every other exception that leaves a route is
    unhandled and becomes the framework's generic server error. *)
Inductive Exception :=
| HTTPException (status_code : Z) (detail : Detail)
| ValueError (msg : str)
| InvalidToken
| UnicodeError (msg : str)
| UpstreamError (msg : str)
| DatabaseError (msg : str)
| PendingRollbackError (original : str).

(** [str(e)] for the exceptions whose text the code formats. *)
Definition Exception_str (e : Exception) : str :=
  match e with
  | HTTPException _ (Text s) => s
  | HTTPException _ (No_API_key_configured_for _) => []
  | ValueError msg => msg
  | InvalidToken => []
  | UnicodeError msg => msg
  | UpstreamError msg => msg
  | DatabaseError msg => msg
  | PendingRollbackError original =>
      lit "This Session's transaction has been rolled back due to a previous exception during flush. To begin a new transaction with this Session, first issue Session.rollback(). Original exception was: "
      ++ original
  end.

Definition is_ValueError (e : Exception) : bool :=
  match e with ValueError _ => true | _ => false end.

Definition is_HTTPException (e : Exception) : bool :=
  match e with HTTPException _ _ => true | _ => false end.

Inductive Result (A : Type) : Type :=
| Return (a : A)
| Raise (e : Exception).
Arguments Return {A} a.
Arguments Raise {A} e.

Definition HTTP_400_BAD_REQUEST : Z := 400.
Definition HTTP_404_NOT_FOUND : Z := 404.
Definition HTTP_500_INTERNAL_SERVER_ERROR : Z := 500.

(* ================================================================= *)
(** ** models.py *)

Definition ProviderEnum_value (p : ProviderEnum) : str :=
  match p with
  | OPENAI => lit "openai"
  | ANTHROPIC => lit "anthropic"
  end.

Definition ProviderEnum_eqb (p q : ProviderEnum) : bool :=
  match p, q with
  | OPENAI, OPENAI | ANTHROPIC, ANTHROPIC => true
  | _, _ => false
  end.

Inductive MessageRoleEnum := USER | ASSISTANT | SYSTEM.

Definition MessageRoleEnum_value (r : MessageRoleEnum) : str :=
  match r with
  | USER => lit "user"
  | ASSISTANT => lit "assistant"
  | SYSTEM => lit "system"
  end.

Module User.
Record t := { id : Z; email : str; name : str }.
End User.

Module Conversation.
Record t := {
  id : Z;
  user_id : Z;
  title : option str;
  agent_type : str;
  provider : ProviderEnum;
  created_at : Z;
  updated_at : Z
}.
End Conversation.

Module Message.
Record t := {
  id : Z;
  conversation_id : Z;
  role : MessageRoleEnum;
  content : str;
  created_at : Z
}.
End Message.

Module ApiKey.
Record t := {
  id : Z;
  user_id : Z;
  provider : ProviderEnum;
  encrypted_key : str
}.
End ApiKey.

(* ================================================================= *)
(** ** database.py: the tables and the session *)

(** The committed rows, each table in insertion order, and the
    auto-increment counter of the [messages] table. *)
Record Database := {
  conversations : list Conversation.t;
  messages : list Message.t;
  api_keys : list ApiKey.t;
  messages_autoinc : Z
}.

(** A unit of work staged in the session and applied by [commit]. *)
Inductive Change :=
| Insert (conversation_id : Z) (role : MessageRoleEnum) (content : str)
| SetTitle (conversation_id : Z) (title : str) (updated_at : Z)
| Delete (conversation_id : Z).

(** The session of one request: the database, the staged changes, the wall
    clock read by [datetime.utcnow], and the outcome of each coming
    [db.commit()] ([None]: it succeeds; [Some e]: it raises [e]; past the end
    of the list every commit succeeds).  A failure is not used up: see
    [commit]. *)
Record Session := {
  db : Database;
  staged : list Change;
  utcnow : Z;
  commit_outcomes : list (option Exception)
}.

(** The session monad. *)
Definition M (A : Type) : Type := Session -> Result A * Session.

Definition ret {A} (a : A) : M A := fun s => (Return a, s).

Definition raise {A} (e : Exception) : M A := fun s => (Raise e, s).

Definition bind {A B} (m : M A) (k : A -> M B) : M B :=
  fun s =>
    match m s with
    | (Return a, s') => k a s'
    | (Raise e, s') => (Raise e, s')
    end.

(** [try: m  except <handles> as e: handler e]. *)
Definition try_except {A} (m : M A) (handles : Exception -> bool)
    (handler : Exception -> M A) : M A :=
  fun s =>
    match m s with
    | (Return a, s') => (Return a, s')
    | (Raise e, s') => if handles e then handler e s' else (Raise e, s')
    end.

Definition get {A} (f : Session -> A) : M A := fun s => (Return (f s), s).

Definition lift {A} (r : Result A) : M A := fun s => (r, s).

Declare Scope monad_scope.
Delimit Scope monad_scope with monad.
Notation "x <- m ;; k" := (bind m (fun x => k))
  (at level 61, m at next level, right associativity) : monad_scope.
Notation "m ;;; k" := (bind m (fun _ => k))
  (at level 61, right associativity) : monad_scope.
Open Scope monad_scope.
Open Scope Z_scope.

(** [db.add(...)], [obj.attr = ...] and [db.delete(obj)] stage a change. *)
Definition stage (c : Change) : M unit :=
  fun s => (Return tt,
            {| db := db s; staged := staged s ++ [c];
               utcnow := utcnow s; commit_outcomes := commit_outcomes s |}).

Definition set_title (cid : Z) (t : str) (at_ : Z) (c : Conversation.t)
    : Conversation.t :=
  if Conversation.id c =? cid then
    {| Conversation.id := Conversation.id c;
       Conversation.user_id := Conversation.user_id c;
       Conversation.title := Some t;
       Conversation.agent_type := Conversation.agent_type c;
       Conversation.provider := Conversation.provider c;
       Conversation.created_at := Conversation.created_at c;
       Conversation.updated_at := at_ |}
  else c.

(** One staged change applied to the tables at time [now].  An inserted
    message takes the next auto-increment id and [created_at = now]; deleting
    a conversation cascades to its messages. *)
Definition apply_change (now : Z) (d : Database) (c : Change) : Database :=
  match c with
  | Insert cid r txt =>
      {| conversations := conversations d;
         messages := messages d ++
           [{| Message.id := messages_autoinc d;
               Message.conversation_id := cid;
               Message.role := r;
               Message.content := txt;
               Message.created_at := now |}];
         api_keys := api_keys d;
         messages_autoinc := messages_autoinc d + 1 |}
  | SetTitle cid t at_ =>
      {| conversations := map (set_title cid t at_) (conversations d);
         messages := messages d;
         api_keys := api_keys d;
         messages_autoinc := messages_autoinc d |}
  | Delete cid =>
      {| conversations :=
           filter (fun c => negb (Conversation.id c =? cid)) (conversations d);
         messages :=
           filter (fun m => negb (Message.conversation_id m =? cid)) (messages d);
         api_keys := api_keys d;
         messages_autoinc := messages_autoinc d |}
  end.

Definition flush (now : Z) (d : Database) (cs : list Change) : Database :=
  fold_left (apply_change now) cs d.

(** What a session raises on [db.commit()] once a commit has raised [e]
    and no [db.rollback()] has followed.  (The text of the library's
    [PendingRollbackError] ends with a link to its documentation, which is
    left out.) *)
Definition needs_rollback (e : Exception) : Exception :=
  match e with
  | PendingRollbackError _ => e
  | _ => PendingRollbackError (Exception_str e)
  end.

(** The outcomes a commit that raised leaves behind: the same exception
    would not be raised again, but the one that asks for a rollback. *)
Definition inactive (outcomes : list (option Exception))
    : list (option Exception) :=
  match outcomes with
  | Some e :: rest => Some (needs_rollback e) :: rest
  | _ => outcomes
  end.

(** [db.commit()]: applies the staged changes, or raises.  A commit that
    raises leaves the session's transaction inactive until [db.rollback()],
    which no route calls: what was staged is gone, and every later commit of
    the session raises [PendingRollbackError], so that nothing staged after
    the failure is ever written either.  Returns the id the next inserted
    message got, which is what [db.refresh] makes visible on the object. *)
Definition commit : M Z :=
  fun s =>
    match commit_outcomes s with
    | Some e :: rest =>
        (Raise e,
         {| db := db s; staged := []; utcnow := utcnow s;
            commit_outcomes := Some (needs_rollback e) :: rest |})
    | None :: rest =>
        (Return (messages_autoinc (db s)),
         {| db := flush (utcnow s) (db s) (staged s); staged := [];
            utcnow := utcnow s; commit_outcomes := rest |})
    | [] =>
        (Return (messages_autoinc (db s)),
         {| db := flush (utcnow s) (db s) (staged s); staged := [];
            utcnow := utcnow s; commit_outcomes := [] |})
    end.

(** Time passing while the request awaits something external. *)
Definition sleep (dt : nat) : M unit :=
  fun s => (Return tt,
            {| db := db s; staged := staged s;
               utcnow := utcnow s + Z.of_nat dt;
               commit_outcomes := commit_outcomes s |}).

(** [db.query(Conversation).filter(Conversation.id == cid,
    Conversation.user_id == uid).first()]. *)
Definition query_conversation (cid uid : Z) : M (option Conversation.t) :=
  get (fun s =>
    find (fun c => (Conversation.id c =? cid) && (Conversation.user_id c =? uid))
         (conversations (db s))).

(** [db.query(ApiKey).filter(ApiKey.user_id == uid,
    ApiKey.provider == p).first()]. *)
Definition query_api_key (uid : Z) (p : ProviderEnum) : M (option ApiKey.t) :=
  get (fun s =>
    find (fun k => (ApiKey.user_id k =? uid)
                   && ProviderEnum_eqb (ApiKey.provider k) p)
         (api_keys (db s))).

(** [ORDER BY created_at DESC], rows with equal timestamps kept in table
    order. *)
Fixpoint insert_desc (m : Message.t) (l : list Message.t) : list Message.t :=
  match l with
  | [] => [m]
  | x :: l' =>
      if Message.created_at x <=? Message.created_at m
      then m :: x :: l'
      else x :: insert_desc m l'
  end.

Definition order_by_created_at_desc (l : list Message.t) : list Message.t :=
  fold_right insert_desc [] l.

(** [ORDER BY created_at ASC], same convention. *)
Fixpoint insert_asc (m : Message.t) (l : list Message.t) : list Message.t :=
  match l with
  | [] => [m]
  | x :: l' =>
      if Message.created_at m <=? Message.created_at x
      then m :: x :: l'
      else x :: insert_asc m l'
  end.

Definition order_by_created_at_asc (l : list Message.t) : list Message.t :=
  fold_right insert_asc [] l.

(** [db.query(Message).filter(Message.conversation_id == cid)]. *)
Definition messages_of (cid : Z) (d : Database) : list Message.t :=
  filter (fun m => Message.conversation_id m =? cid) (messages d).

(* ================================================================= *)
(** ** routes/conversations.py *)

Definition Conversation_not_found : Exception :=
  HTTPException HTTP_404_NOT_FOUND (Text (lit "Conversation not found")).

(** The lookup every route starts with: the conversation with this id that
    belongs to the current user, or 404. *)
Definition owned_conversation (conversation_id : Z) (current_user : User.t)
    : M Conversation.t :=
  conversation <- query_conversation conversation_id (User.id current_user) ;;
  match conversation with
  | None => raise Conversation_not_found
  | Some c => ret c
  end.

Definition get_conversation (conversation_id : Z) (current_user : User.t)
    : M (Conversation.t * list Message.t) :=
  conversation <- owned_conversation conversation_id current_user ;;
  messages <- get (fun s =>
    order_by_created_at_asc (messages_of conversation_id (db s))) ;;
  ret (conversation, messages).

Definition update_conversation (conversation_id : Z) (title : str)
    (current_user : User.t) : M Conversation.t :=
  conversation <- owned_conversation conversation_id current_user ;;
  now <- get utcnow ;;
  stage (SetTitle conversation_id title now) ;;;
  commit ;;;
  ret (set_title conversation_id title now conversation).

Definition delete_conversation (conversation_id : Z) (current_user : User.t)
    : M unit :=
  owned_conversation conversation_id current_user ;;;
  stage (Delete conversation_id) ;;;
  commit ;;;
  ret tt.

(** [.offset(skip).limit(limit)], for an offset and a limit that are not
    negative; what a negative one does is up to the database. *)
Definition offset_limit {A} (skip limit : nat) (l : list A) : list A :=
  firstn limit (skipn skip l).

Definition get_messages (conversation_id : Z) (current_user : User.t)
    (skip limit : nat) : M (list Message.t) :=
  owned_conversation conversation_id current_user ;;;
  get (fun s =>
    offset_limit skip limit
      (order_by_created_at_asc (messages_of conversation_id (db s)))).

(* ================================================================= *)
(** ** services/ai_service.py *)

Inductive LLM :=
| ChatOpenAI (api_key model : str)
| ChatAnthropic (api_key model : str).

(** The three implementations of [BaseAIService], as constructed. *)
Inductive BaseAIService :=
| LangGraphService (llm : LLM)
| OpenAIDirectService (api_key model : str)
| AnthropicDirectService (api_key model : str).

(** The constructors of the provider SDKs that run while a service is
    built ([ChatOpenAI] or [ChatAnthropic] and [create_react_agent],
    [AsyncOpenAI], [AsyncAnthropic]) are opaque: [sdk service] is the
    exception they raise on the way to [service], if any. *)
Definition SDK := BaseAIService -> option Exception.

Definition construct (sdk : SDK) (service : BaseAIService)
    : Result BaseAIService :=
  match sdk service with
  | Some e => Raise e
  | None => Return service
  end.

(** [LangGraphService.__init__]: every provider other than ["openai"] takes
    the Anthropic branch. *)
Definition LangGraphService_init (sdk : SDK) (api_key provider : str)
    (model : option str) : Result BaseAIService :=
  if str_eqb provider (lit "openai") then
    construct sdk
      (LangGraphService
         (ChatOpenAI api_key (or_default model (lit "gpt-4-turbo-preview"))))
  else
    construct sdk
      (LangGraphService
         (ChatAnthropic api_key
            (or_default model (lit "claude-3-5-sonnet-20241022")))).

Module AgentFactory.

Definition create (sdk : SDK) (agent_type provider api_key : str)
    (model : option str) : Result BaseAIService :=
  if str_eqb agent_type (lit "langgraph") then
    LangGraphService_init sdk api_key provider model
  else if str_eqb agent_type (lit "openai_direct") then
    if negb (str_eqb provider (lit "openai")) then
      Raise (ValueError (lit "openai_direct agent requires openai provider"))
    else
      construct sdk
        (OpenAIDirectService api_key
           (or_default model (lit "gpt-4-turbo-preview")))
  else if str_eqb agent_type (lit "anthropic_direct") then
    if negb (str_eqb provider (lit "anthropic")) then
      Raise (ValueError
               (lit "anthropic_direct agent requires anthropic provider"))
    else
      construct sdk
        (AnthropicDirectService api_key
           (or_default model (lit "claude-3-5-sonnet-20241022")))
  else
    Raise (ValueError
             (lit "Unknown agent_type: " ++ agent_type
              ++ lit ". Supported: langgraph, openai_direct, anthropic_direct")).

End AgentFactory.

(** The two error kinds of the resolver, read off the two kinds of
    [ValueError] that [create] raises. *)
Definition UnsupportedStrategy (r : Result BaseAIService) : Prop :=
  exists agent_type,
    r = Raise (ValueError
                 (lit "Unknown agent_type: " ++ agent_type
                  ++ lit ". Supported: langgraph, openai_direct, anthropic_direct")).

Definition ProviderStrategyMismatch (r : Result BaseAIService) : Prop :=
  r = Raise (ValueError (lit "openai_direct agent requires openai provider"))
  \/ r = Raise (ValueError
                  (lit "anthropic_direct agent requires anthropic provider")).

(** What the SDK constructors raise is their own: none of the two kinds of
    [ValueError] above. *)
Definition raises_its_own (sdk : SDK) : Prop :=
  forall service e,
    sdk service = Some e ->
    ~ UnsupportedStrategy (Raise e) /\ ~ ProviderStrategyMismatch (Raise e).

(** The service the langgraph strategy builds for a provider. *)
Definition langgraph_service (p : ProviderEnum) (api_key : str)
    (model : option str) : BaseAIService :=
  match p with
  | OPENAI =>
      LangGraphService
        (ChatOpenAI api_key (or_default model (lit "gpt-4-turbo-preview")))
  | ANTHROPIC =>
      LangGraphService
        (ChatAnthropic api_key
           (or_default model (lit "claude-3-5-sonnet-20241022")))
  end.

(* ================================================================= *)
(** ** [str.encode()] and [bytes.decode()]: strict UTF-8 *)

Open Scope N_scope.

Definition is_surrogate (c : N) : bool := (0xD800 <=? c) && (c <=? 0xDFFF).

(** The UTF-8 form of one code point; none for a surrogate or a value past
    U+10FFFF. *)
Definition utf8_encode_char (c : N) : option bytes :=
  if c <? 0x80 then Some [c]
  else if c <? 0x800 then Some [0xC0 + c / 64; 0x80 + c mod 64]
  else if c <? 0x10000 then
    if is_surrogate c then None
    else Some [0xE0 + c / 4096; 0x80 + (c / 64) mod 64; 0x80 + c mod 64]
  else if c <? 0x110000 then
    Some [0xF0 + c / 262144; 0x80 + (c / 4096) mod 64;
          0x80 + (c / 64) mod 64; 0x80 + c mod 64]
  else None.

Definition cant_encode : Exception :=
  UnicodeError (lit "'utf-8' codec can't encode character").

Definition cant_decode : Exception :=
  UnicodeError (lit "'utf-8' codec can't decode byte").

(** [s.encode()]. *)
Fixpoint str_encode (s : str) : Result bytes :=
  match s with
  | [] => Return []
  | c :: s' =>
      match utf8_encode_char c, str_encode s' with
      | Some b, Return bs => Return (b ++ bs)
      | None, _ => Raise cant_encode
      | _, Raise e => Raise e
      end
  end.

Definition is_continuation (b : N) : bool := (0x80 <=? b) && (b <? 0xC0).

Definition cons_char (c : N) (r : Result str) : Result str :=
  match r with
  | Return s => Return (c :: s)
  | Raise e => Raise e
  end.

(** [b.decode()]: rejects stray continuation bytes, truncated and overlong
    sequences, surrogates and values past U+10FFFF. *)
Fixpoint bytes_decode (b : bytes) : Result str :=
  match b with
  | [] => Return []
  | b0 :: r0 =>
      if b0 <? 0x80 then cons_char b0 (bytes_decode r0)
      else if b0 <? 0xC2 then Raise cant_decode
      else if b0 <? 0xE0 then
        match r0 with
        | b1 :: r1 =>
            if is_continuation b1
            then cons_char ((b0 - 0xC0) * 64 + (b1 - 0x80)) (bytes_decode r1)
            else Raise cant_decode
        | _ => Raise cant_decode
        end
      else if b0 <? 0xF0 then
        match r0 with
        | b1 :: b2 :: r2 =>
            let c := (b0 - 0xE0) * 4096 + (b1 - 0x80) * 64 + (b2 - 0x80) in
            if is_continuation b1 && is_continuation b2
               && (0x800 <=? c) && negb (is_surrogate c)
            then cons_char c (bytes_decode r2)
            else Raise cant_decode
        | _ => Raise cant_decode
        end
      else if b0 <? 0xF5 then
        match r0 with
        | b1 :: b2 :: b3 :: r3 =>
            let c := (b0 - 0xF0) * 262144 + (b1 - 0x80) * 4096
                     + (b2 - 0x80) * 64 + (b3 - 0x80) in
            if is_continuation b1 && is_continuation b2 && is_continuation b3
               && (0x10000 <=? c) && (c <? 0x110000)
            then cons_char c (bytes_decode r3)
            else Raise cant_decode
        | _ => Raise cant_decode
        end
      else Raise cant_decode
  end.

(** A string [str.encode()] accepts: no surrogates, nothing past U+10FFFF. *)
Definition encodable (s : str) : Prop :=
  Forall (fun c => c < 0x110000 /\ is_surrogate c = false) s.

Definition ascii_only (b : list N) : Prop := Forall (fun c => c < 0x80) b.

Definition octets (b : bytes) : Prop := Forall (fun c => c < 256) b.

Open Scope Z_scope.

(* ================================================================= *)
(** ** The Fernet primitive of the [cryptography] package

    The package is a collaborator, not part of this code base: it is an
    interface here, and [FernetContract] records what its documentation
    promises about tokens it has made itself.  Which other byte strings
    [decrypt] rejects is left to the package. *)

Record FernetLib := {
  (** a constructed [Fernet] object *)
  cipher : Type;
  (** what one [encrypt] call draws from outside: the IV and the time *)
  entropy : Type;
  (** [Fernet(key)]: raises [ValueError] unless the key is 32 url-safe
      base64-encoded bytes *)
  Fernet : bytes -> Result cipher;
  (** [f.encrypt(data)] *)
  encrypt : cipher -> entropy -> bytes -> bytes;
  (** [f.decrypt(token)] *)
  decrypt : cipher -> bytes -> Result bytes
}.

(** What holds of every [Fernet] object [f] built from a key [k]. *)
Record FernetContract (F : FernetLib) : Prop := {
  (** a token decrypts to the data it was made from *)
  decrypt_encrypt : forall k f r m,
    Fernet F k = Return f -> octets m ->
    decrypt F f (encrypt F f r m) = Return m;
  (** a token is url-safe base64 text *)
  token_ascii : forall k f r m,
    Fernet F k = Return f -> octets m -> ascii_only (encrypt F f r m)
}.

(** A stand-in for the package, for running the code below on concrete
    input: a key is one ASCII byte, a token is the key byte followed by the
    data, two half-bytes per octet. *)
Module FakeFernet.

Open Scope N_scope.

Definition Fernet (key : bytes) : Result N :=
  match key with
  | [k] => if k <? 0x80 then Return k
           else Raise (ValueError (lit "Fernet key must be 32 url-safe base64-encoded bytes."))
  | _ => Raise (ValueError (lit "Fernet key must be 32 url-safe base64-encoded bytes."))
  end.

Fixpoint halves (m : bytes) : bytes :=
  match m with
  | [] => []
  | b :: m' => b / 16 :: b mod 16 :: halves m'
  end.

Fixpoint unhalves (t : bytes) : Result bytes :=
  match t with
  | [] => Return []
  | h :: l :: t' =>
      if (h <? 16) && (l <? 16) then
        match unhalves t' with
        | Return m => Return (16 * h + l :: m)
        | Raise e => Raise e
        end
      else Raise InvalidToken
  | _ => Raise InvalidToken
  end.

Definition encrypt (k : N) (_ : unit) (m : bytes) : bytes := k :: halves m.

Definition decrypt (k : N) (t : bytes) : Result bytes :=
  match t with
  | k' :: t' => if k' =? k then unhalves t' else Raise InvalidToken
  | [] => Raise InvalidToken
  end.

Definition lib : FernetLib :=
  @Build_FernetLib N unit Fernet encrypt decrypt.

Close Scope N_scope.

End FakeFernet.

(* ================================================================= *)
(** ** config.py and services/encryption.py *)

Record Settings := { ENCRYPTION_KEY : str }.

Section Encryption.

Variable F : FernetLib.
Variable settings : Settings.

Definition and_then {A B} (r : Result A) (k : A -> Result B) : Result B :=
  match r with
  | Return a => k a
  | Raise e => Raise e
  end.

(** [_get_fernet()]: the key is declared [str], so it is encoded. *)
Definition _get_fernet : Result (cipher F) :=
  and_then (str_encode (ENCRYPTION_KEY settings)) (Fernet F).

(** [encrypt_api_key(api_key)]; [r] is what [fernet.encrypt] draws. *)
Definition encrypt_api_key (r : entropy F) (api_key : str) : Result str :=
  and_then _get_fernet (fun fernet =>
  and_then (str_encode api_key) (fun data =>
  let encrypted_bytes := encrypt F fernet r data in
  bytes_decode encrypted_bytes)).

(** [decrypt_api_key(encrypted_key)]. *)
Definition decrypt_api_key (encrypted_key : str) : Result str :=
  and_then _get_fernet (fun fernet =>
  and_then (str_encode encrypted_key) (fun token =>
  and_then (decrypt F fernet token) (fun decrypted_bytes =>
  bytes_decode decrypted_bytes))).

End Encryption.

(* ================================================================= *)
(** ** routes/chat.py *)

Module ChatRequest.
Record t := { conversation_id : Z; message : str }.
End ChatRequest.

(** One entry of the history handed to the agent:
    [{"role": ..., "content": ...}]. *)
Record RoleContent := { role : str; content : str }.

(** The async generator an agent's [chat] returns, as the finite sequence
    that consuming it unfolds: a chunk after waiting [dt], normal exhaustion,
    or an exception raised while waiting for the next chunk. *)
Inductive AgentStream :=
| Chunk (dt : nat) (chunk : str) (rest : AgentStream)
| Exhausted (dt : nat)
| Fails (dt : nat) (e : Exception).

Fixpoint chunks (it : AgentStream) : list str :=
  match it with
  | Chunk _ c rest => c :: chunks rest
  | Exhausted _ | Fails _ _ => []
  end.

Fixpoint failure (it : AgentStream) : option Exception :=
  match it with
  | Chunk _ _ rest => failure rest
  | Exhausted _ => None
  | Fails _ e => Some e
  end.

Fixpoint duration (it : AgentStream) : nat :=
  match it with
  | Chunk dt _ rest => dt + duration rest
  | Exhausted dt | Fails dt _ => dt
  end.

(** A server-sent-event frame, [f"data: {payload}\n\n"]. *)
Definition frame (payload : str) : str :=
  lit "data: " ++ payload ++ [10%N; 10%N].

Definition DONE : str := frame (lit "[DONE]").

(** The suspended states of the generator [generate()] of [chat_stream]:
    inside the [async for] (or not yet started), after
    [yield "data: [DONE]\n\n"], after the [yield] of the [except] block, and
    finished. *)
Inductive Generator :=
| Iterating (full_response : str) (it : AgentStream)
| Sent_DONE (full_response : str)
| Sent_error (e : Exception)
| Closed.

(** [{"role": msg.role.value, "content": msg.content}]. *)
Definition as_role_content (msg : Message.t) : RoleContent :=
  {| role := MessageRoleEnum_value (Message.role msg);
     content := Message.content msg |}.

Section Chat.

Variable F : FernetLib.
Variable settings : Settings.

(** The SDK constructors that run when the service is created. *)
Variable sdk : SDK.

(** What [service.chat(message, history)] yields; the provider SDKs behind
    it are opaque. *)
Variable service_chat :
  BaseAIService -> str -> list RoleContent -> AgentStream.

(** The last 20 messages of the conversation, newest first as queried, then
    reversed and converted. *)
Definition load_history (conversation_id : Z) : M (list RoleContent) :=
  history_messages <- get (fun s =>
    firstn 20
      (order_by_created_at_desc (messages_of conversation_id (db s)))) ;;
  ret (map as_role_content (rev history_messages)).

(** The statements both routes begin with: ownership check, API key
    lookup and decryption, history, saving the user message, creating the
    service. *)
Definition open_turn (request : ChatRequest.t) (current_user : User.t)
    : M (BaseAIService * list RoleContent) :=
  conversation <-
    owned_conversation (ChatRequest.conversation_id request) current_user ;;
  api_key_record <-
    query_api_key (User.id current_user)
                  (Conversation.provider conversation) ;;
  match api_key_record with
  | None =>
      raise (HTTPException HTTP_400_BAD_REQUEST
               (No_API_key_configured_for
                  (Conversation.provider conversation)))
  | Some api_key_record =>
      api_key <-
        lift (decrypt_api_key F settings
                (ApiKey.encrypted_key api_key_record)) ;;
      history <- load_history (ChatRequest.conversation_id request) ;;
      stage (Insert (ChatRequest.conversation_id request) USER
                    (ChatRequest.message request)) ;;;
      commit ;;;
      service <-
        try_except
          (lift (AgentFactory.create sdk
                   (Conversation.agent_type conversation)
                   (ProviderEnum_value (Conversation.provider conversation))
                   api_key None))
          is_ValueError
          (fun e => raise (HTTPException HTTP_400_BAD_REQUEST
                             (Text (Exception_str e)))) ;;
      ret (service, history)
  end.

(** One resumption of [generate()]: runs to the next [yield] and returns
    the frame, or [None] when the generator returns. *)
Definition anext (request : ChatRequest.t) (g : Generator)
    : M (option str * Generator) :=
  match g with
  | Iterating full_response (Chunk dt chunk it) =>
      sleep dt ;;;
      ret (Some (frame chunk), Iterating (full_response ++ chunk) it)
  | Iterating full_response (Exhausted dt) =>
      sleep dt ;;;
      ret (Some DONE, Sent_DONE full_response)
  | Iterating full_response (Fails dt e) =>
      sleep dt ;;;
      ret (Some (frame (lit "Error: " ++ Exception_str e)), Sent_error e)
  | Sent_DONE full_response =>
      try_except
        (stage (Insert (ChatRequest.conversation_id request) ASSISTANT
                       full_response) ;;;
         commit ;;;
         ret (None, Closed))
        (fun _ => true)
        (fun e =>
           ret (Some (frame (lit "Error: " ++ Exception_str e)),
                Sent_error e))
  | Sent_error e =>
      stage (Insert (ChatRequest.conversation_id request) ASSISTANT
                    (lit "[Error: " ++ Exception_str e ++ lit "]")) ;;;
      commit ;;;
      ret (None, Closed)
  | Closed => ret (None, Closed)
  end.

(** [chat_stream]: the response object holds the generator, not yet
    started. *)
Definition chat_stream (request : ChatRequest.t) (current_user : User.t)
    : M Generator :=
  turn <- open_turn request current_user ;;
  let (service, history) := turn in
  ret (Iterating [] (service_chat service (ChatRequest.message request)
                                  history)).

(** [StreamingResponse] sends every frame the generator yields until it
    returns or raises; [None] only if [fuel] resumptions were not enough. *)
Fixpoint send (fuel : nat) (request : ChatRequest.t) (g : Generator)
    (s : Session) : option (list str * Result unit * Session) :=
  match fuel with
  | O => None
  | S fuel' =>
      match anext request g s with
      | (Return (Some sent, g'), s') =>
          match send fuel' request g' s' with
          | Some (frames, r, s'') => Some (sent :: frames, r, s'')
          | None => None
          end
      | (Return (None, _), s') => Some ([], Return tt, s')
      | (Raise e, s') => Some ([], Raise e, s')
      end
  end.

(** Resumptions that always suffice. *)
Definition resumptions (g : Generator) : nat :=
  match g with
  | Iterating _ it => List.length (chunks it) + 3
  | Sent_DONE _ => 2
  | Sent_error _ => 1
  | Closed => 1
  end.

(** A whole request to [/chat/stream]: the route, then the response body
    streamed to the caller. *)
Definition post_stream (request : ChatRequest.t) (current_user : User.t)
    (s : Session) : option (Result (list str * Result unit) * Session) :=
  match chat_stream request current_user s with
  | (Raise e, s') => Some (Raise e, s')
  | (Return g, s') =>
      match send (resumptions g) request g s' with
      | Some (frames, r, s'') => Some (Return (frames, r), s'')
      | None => None
      end
  end.

(** The [async for] of [chat_message]. *)
Fixpoint collect (it : AgentStream) (full_response : str) : M str :=
  match it with
  | Chunk dt chunk rest => sleep dt ;;; collect rest (full_response ++ chunk)
  | Exhausted dt => sleep dt ;;; ret full_response
  | Fails dt e => sleep dt ;;; raise e
  end.

(** [chat_message]: returns [message] and [message_id]. *)
Definition chat_message (request : ChatRequest.t) (current_user : User.t)
    : M (str * Z) :=
  turn <- open_turn request current_user ;;
  let (service, history) := turn in
  full_response <-
    try_except
      (collect (service_chat service (ChatRequest.message request) history)
               [])
      (fun _ => true)
      (fun e => raise (HTTPException HTTP_500_INTERNAL_SERVER_ERROR
                         (Text (Exception_str e)))) ;;
  stage (Insert (ChatRequest.conversation_id request) ASSISTANT
                full_response) ;;;
  message_id <- commit ;;
  ret (full_response, message_id).

End Chat.

(* ================================================================= *)
(** ** A concrete deployment, for running the routes

    Two users; Alice owns conversation 7 (provider openai, strategy
    openai_direct) and has a stored key for openai; the vault key is ["k"];
    the upstream answer is scripted. *)
Module Scenario.

Definition settings : Settings := {| ENCRYPTION_KEY := lit "k" |}.

Definition alice : User.t :=
  {| User.id := 1; User.email := lit "alice@example.org";
     User.name := lit "Alice" |}.

Definition bob : User.t :=
  {| User.id := 2; User.email := lit "bob@example.org";
     User.name := lit "Bob" |}.

Definition conversation7 : Conversation.t :=
  {| Conversation.id := 7; Conversation.user_id := 1;
     Conversation.title := Some (lit "First chat");
     Conversation.agent_type := lit "openai_direct";
     Conversation.provider := OPENAI;
     Conversation.created_at := 100; Conversation.updated_at := 100 |}.

(** The token [encrypt_api_key] stores for ["sk-test"]. *)
Definition stored_token : str :=
  match encrypt_api_key FakeFernet.lib settings tt (lit "sk-test") with
  | Return token => token
  | Raise _ => []
  end.

Definition key_row (encrypted_key : str) : ApiKey.t :=
  {| ApiKey.id := 1; ApiKey.user_id := 1; ApiKey.provider := OPENAI;
     ApiKey.encrypted_key := encrypted_key |}.

Definition earlier (i : Z) : Message.t :=
  {| Message.id := i; Message.conversation_id := 7;
     Message.role := if Z.even i then ASSISTANT else USER;
     Message.content := lit "m";
     Message.created_at := 100 + i |}.

Definition database (keys : list ApiKey.t) (msgs : list Message.t)
    : Database :=
  {| conversations := [conversation7]; messages := msgs; api_keys := keys;
     messages_autoinc := 1 + Z.of_nat (List.length msgs) |}.

Definition session (d : Database) (outcomes : list (option Exception))
    : Session :=
  {| db := d; staged := []; utcnow := 1000; commit_outcomes := outcomes |}.

(** Alice has a usable key and no earlier messages. *)
Definition start : Session := session (database [key_row stored_token] []) [].

(** Nothing stored at all: conversation 7 does not exist. *)
Definition blank : Session :=
  session {| conversations := []; messages := []; api_keys := [];
             messages_autoinc := 1 |} [].

(** The same, with the key row missing. *)
Definition no_key : Session := session (database [] []) [].

(** The same, with a token that is not one. *)
Definition bad_token : Session :=
  session (database [key_row (lit "not-a-token")] []) [].

(** The same, with 25 earlier messages. *)
Definition long_history : Session :=
  session (database [key_row stored_token]
             (map (fun i => earlier (Z.of_nat i)) (seq 1 25))) [].

(** The same as [start], but the first commit after the user message's
    fails. *)
Definition flaky : Session :=
  session (database [key_row stored_token] [])
          [None; Some (DatabaseError (lit "server has gone away"))].

Definition Hi : ChatRequest.t :=
  {| ChatRequest.conversation_id := 7; ChatRequest.message := lit "Hi" |}.

Definition hello_there : AgentStream :=
  Chunk 1 (lit "Hello") (Chunk 1 (lit " there") (Exhausted 0)).

Definition hello_boom : AgentStream :=
  Chunk 1 (lit "Hello") (Fails 1 (UpstreamError (lit "boom"))).

Definition answers (it : AgentStream)
    : BaseAIService -> str -> list RoleContent -> AgentStream :=
  fun _ _ _ => it.

(** SDK constructors that accept whatever they are given. *)
Definition lenient : SDK := fun _ => None.

(** SDK constructors that refuse an empty API key. *)
Definition strict : SDK :=
  fun service =>
    match service with
    | LangGraphService (ChatOpenAI [] _)
    | LangGraphService (ChatAnthropic [] _)
    | OpenAIDirectService [] _
    | AnthropicDirectService [] _ =>
        Some (UpstreamError (lit "The api_key client option must be set"))
    | _ => None
    end.

End Scenario.

(* ================================================================= *)
(** ** routes/conversations.py: listing *)

(** [ORDER BY updated_at DESC] on conversations, rows with equal timestamps
    kept in table order. *)
Fixpoint insert_updated_desc (c : Conversation.t) (l : list Conversation.t)
    : list Conversation.t :=
  match l with
  | [] => [c]
  | x :: l' =>
      if Conversation.updated_at x <=? Conversation.updated_at c
      then c :: x :: l'
      else x :: insert_updated_desc c l'
  end.

Definition order_by_updated_at_desc (l : list Conversation.t)
    : list Conversation.t :=
  fold_right insert_updated_desc [] l.

(** [db.query(Conversation).filter(Conversation.user_id == uid)]. *)
Definition conversations_of (uid : Z) (d : Database) : list Conversation.t :=
  filter (fun c => Conversation.user_id c =? uid) (conversations d).

(** [list_conversations]: each entry is the conversation with its
    [message_count]. *)
Definition list_conversations (current_user : User.t) (skip limit : nat)
    : M (list (Conversation.t * nat)) :=
  conversations <- get (fun s =>
    offset_limit skip limit
      (order_by_updated_at_desc
         (conversations_of (User.id current_user) (db s)))) ;;
  get (fun s =>
    map (fun conv =>
           (conv, List.length (messages_of (Conversation.id conv) (db s))))
        conversations).

(* ================================================================= *)
(** ** services/ai_service.py: the messages each service sends *)

(** The message classes of [langchain.schema]. *)
Inductive LangChainMessage :=
| HumanMessage (content : str)
| AIMessage (content : str)
| SystemMessage (content : str).

(** The loop of [LangGraphService.chat] over the history: an entry whose
    role is none of the three is skipped. *)
Fixpoint LangGraphService_history (history : list RoleContent)
    : list LangChainMessage :=
  match history with
  | [] => []
  | msg :: rest =>
      if str_eqb (role msg) (lit "user") then
        HumanMessage (content msg) :: LangGraphService_history rest
      else if str_eqb (role msg) (lit "assistant") then
        AIMessage (content msg) :: LangGraphService_history rest
      else if str_eqb (role msg) (lit "system") then
        SystemMessage (content msg) :: LangGraphService_history rest
      else LangGraphService_history rest
  end.

(** The [messages] that [LangGraphService.chat] hands to the agent. *)
Definition LangGraphService_messages (message : str)
    (history : list RoleContent) : list LangChainMessage :=
  LangGraphService_history history ++ [HumanMessage message].

(** The [messages] that [AnthropicDirectService.chat] sends: only the user
    and assistant entries of the history, then the new user message. *)
Definition AnthropicDirectService_messages (message : str)
    (history : list RoleContent) : list RoleContent :=
  filter (fun msg => str_eqb (role msg) (lit "user")
                     || str_eqb (role msg) (lit "assistant")) history
  ++ [{| role := lit "user"; content := message |}].

(** [OpenAIDirectService.chat]: [messages = history or []] is the caller's
    own list unless that list is empty, and [messages.append] then changes
    it.  Returns the [messages] sent and the caller's list after the call. *)
Definition OpenAIDirectService_messages (message : str)
    (history : list RoleContent) : list RoleContent * list RoleContent :=
  let sent := history ++ [{| role := lit "user"; content := message |}] in
  match history with
  | [] => (sent, [])
  | _ :: _ => (sent, sent)
  end.

(* ================================================================= *)
(** ** routes/auth.py: the API key routes

    The timestamp columns of [api_keys] are not part of [ApiKey.t] and are
    left out here as well. *)

Module ApiKeyCreate.
Record t := { provider : ProviderEnum; api_key : str }.
End ApiKeyCreate.

(** A pending change to the [api_keys] table. *)
Inductive KeyChange :=
| AddKey (row : ApiKey.t)
| SetKey (id : Z) (encrypted_key : str)
| DeleteKey (id : Z).

Definition set_encrypted_key (id : Z) (encrypted_key : str) (k : ApiKey.t)
    : ApiKey.t :=
  if ApiKey.id k =? id then
    {| ApiKey.id := ApiKey.id k;
       ApiKey.user_id := ApiKey.user_id k;
       ApiKey.provider := ApiKey.provider k;
       ApiKey.encrypted_key := encrypted_key |}
  else k.

Definition apply_key_change (c : KeyChange) (keys : list ApiKey.t)
    : list ApiKey.t :=
  match c with
  | AddKey row => keys ++ [row]
  | SetKey id encrypted_key => map (set_encrypted_key id encrypted_key) keys
  | DeleteKey id => filter (fun k => negb (ApiKey.id k =? id)) keys
  end.

(** [db.commit()] with one pending change to [api_keys]. *)
Definition commit_key_change (c : KeyChange) : M unit :=
  fun s =>
    match commit s with
    | (Return _, s') =>
        (Return tt,
         {| db := {| conversations := conversations (db s');
                     messages := messages (db s');
                     api_keys := apply_key_change c (api_keys (db s'));
                     messages_autoinc := messages_autoinc (db s') |};
            staged := staged s';
            utcnow := utcnow s';
            commit_outcomes := commit_outcomes s' |})
    | (Raise e, s') => (Raise e, s')
    end.

Section ApiKeys.

Variable F : FernetLib.
Variable settings : Settings.

(** How the f-string of [delete_api_key] renders the provider; it depends
    on the Python version. *)
Variable format_provider : ProviderEnum -> str.

(** [create_api_key]; [r] is what [fernet.encrypt] draws and [new_id] the id
    the table gives a new row. *)
Definition create_api_key (r : entropy F) (new_id : Z)
    (key_data : ApiKeyCreate.t) (current_user : User.t) : M ApiKey.t :=
  existing_key <-
    query_api_key (User.id current_user) (ApiKeyCreate.provider key_data) ;;
  match existing_key with
  | Some existing_key =>
      encrypted <-
        lift (encrypt_api_key F settings r (ApiKeyCreate.api_key key_data)) ;;
      commit_key_change (SetKey (ApiKey.id existing_key) encrypted) ;;;
      ret (set_encrypted_key (ApiKey.id existing_key) encrypted existing_key)
  | None =>
      encrypted <-
        lift (encrypt_api_key F settings r (ApiKeyCreate.api_key key_data)) ;;
      let api_key :=
        {| ApiKey.id := new_id;
           ApiKey.user_id := User.id current_user;
           ApiKey.provider := ApiKeyCreate.provider key_data;
           ApiKey.encrypted_key := encrypted |} in
      commit_key_change (AddKey api_key) ;;;
      ret api_key
  end.

(** [list_api_keys]. *)
Definition list_api_keys (current_user : User.t) : M (list ApiKey.t) :=
  get (fun s =>
    filter (fun k => ApiKey.user_id k =? User.id current_user)
           (api_keys (db s))).

(** [delete_api_key]. *)
Definition delete_api_key (provider : ProviderEnum) (current_user : User.t)
    : M unit :=
  api_key <- query_api_key (User.id current_user) provider ;;
  match api_key with
  | None =>
      raise (HTTPException HTTP_404_NOT_FOUND
               (Text (lit "No API key found for provider "
                      ++ format_provider provider)))
  | Some api_key =>
      commit_key_change (DeleteKey (ApiKey.id api_key)) ;;;
      ret tt
  end.

End ApiKeys.

(* ================================================================= *)
(** ** Vocabulary of the properties *)

(** Conversation [cid] exists and belongs to [owner]. *)
Definition owned_by (d : Database) (cid : Z) (owner : User.t) : Prop :=
  exists c, In c (conversations d)
            /\ Conversation.id c = cid
            /\ Conversation.user_id c = User.id owner.

(** No conversation has the id [cid]. *)
Definition absent (d : Database) (cid : Z) : Prop :=
  forall c, In c (conversations d) -> Conversation.id c <> cid.

(** The 400 raised when the user has no key for the provider. *)
Definition CredentialMissing (p : ProviderEnum) : Exception :=
  HTTPException HTTP_400_BAD_REQUEST (No_API_key_configured_for p).

(** An exception a route raises on purpose, with a status and a detail of
    its choosing, as opposed to one that escapes it. *)
Definition user_facing (r : Exception) : Prop :=
  exists status_code detail, r = HTTPException status_code detail.

(** A session as a request gets it: nothing staged, and a store on which
    every commit succeeds. *)
Definition fresh (s : Session) : Prop :=
  staged s = [] /\ commit_outcomes s = [].

(** The message rows a request added. *)
Definition appended (before after : Session) (rows : list Message.t) : Prop :=
  messages (db after) = messages (db before) ++ rows.

(** [needle in haystack], decided. *)
Fixpoint starts_with (s p : str) : bool :=
  match p, s with
  | [], _ => true
  | x :: p', y :: s' => N.eqb x y && starts_with s' p'
  | _ :: _, [] => false
  end.

Fixpoint containsb (haystack needle : str) : bool :=
  starts_with haystack needle
  || match haystack with
     | [] => false
     | _ :: rest => containsb rest needle
     end.

(** Everything the agent produced, concatenated. *)
Definition full_text (it : AgentStream) : str := List.concat (chunks it).

(** The frame that ends the body when the store is healthy: [[DONE]] after
    a clean stream, the error text after a failed one. *)
Definition error_frame (e : Exception) : str :=
  frame (lit "Error: " ++ Exception_str e).

Definition error_content (e : Exception) : str :=
  lit "[Error: " ++ Exception_str e ++ lit "]".

Definition last_frame (it : AgentStream) : str :=
  match failure it with
  | None => DONE
  | Some e => error_frame e
  end.

(** What the streaming route stores as the assistant message. *)
Definition stored_content (full_response : str) (it : AgentStream) : str :=
  match failure it with
  | None => full_response ++ full_text it
  | Some e => error_content e
  end.

(** The row an insert creates in session [s]. *)
Definition new_row (s : Session) (cid : Z) (r : MessageRoleEnum) (txt : str)
    : Message.t :=
  {| Message.id := messages_autoinc (db s);
     Message.conversation_id := cid;
     Message.role := r;
     Message.content := txt;
     Message.created_at := utcnow s |}.

(** The session after one successful commit of one inserted message. *)
Definition after_insert (s : Session) (cid : Z) (r : MessageRoleEnum)
    (txt : str) : Session :=
  {| db := apply_change (utcnow s) (db s) (Insert cid r txt);
     staged := [];
     utcnow := utcnow s;
     commit_outcomes := tl (commit_outcomes s) |}.

(** The session after [dt] units of time. *)
Definition later (dt : nat) (s : Session) : Session :=
  {| db := db s; staged := staged s;
     utcnow := utcnow s + Z.of_nat dt;
     commit_outcomes := commit_outcomes s |}.

(** The session after a commit that failed: nothing is staged, and the
    transaction is inactive. *)
Definition after_failed_commit (s : Session) : Session :=
  {| db := db s; staged := [];
     utcnow := utcnow s;
     commit_outcomes := inactive (commit_outcomes s) |}.

(** The first [n] resumptions of the generator: the frames the caller has
    received so far, where the generator is suspended, and the session at
    that moment. *)
Fixpoint resume (n : nat) (request : ChatRequest.t) (g : Generator)
    (s : Session) : list str * Generator * Session :=
  match n with
  | O => ([], g, s)
  | S n' =>
      match anext request g s with
      | (Return (Some sent, g'), s') =>
          let '(frames, g'', s'') := resume n' request g' s' in
          (sent :: frames, g'', s'')
      | (Return (None, g'), s') => ([], g', s')
      | (Raise _, s') => ([], Closed, s')
      end
  end.

(** The user message of a turn that starts in session [s]. *)
Definition sent_message (s : Session) (request : ChatRequest.t) : Message.t :=
  {| Message.id := messages_autoinc (db s);
     Message.conversation_id := ChatRequest.conversation_id request;
     Message.role := USER;
     Message.content := ChatRequest.message request;
     Message.created_at := utcnow s |}.

(** The assistant message of that turn, written [dt] later. *)
Definition reply_message (s : Session) (request : ChatRequest.t) (dt : nat)
    (txt : str) : Message.t :=
  {| Message.id := messages_autoinc (db s) + 1;
     Message.conversation_id := ChatRequest.conversation_id request;
     Message.role := ASSISTANT;
     Message.content := txt;
     Message.created_at := utcnow s + Z.of_nat dt |}.


Definition not_newer (a b : Message.t) : Prop :=
  Message.created_at a <= Message.created_at b.

(** Order by last update, newest first. *)
Definition updated_not_before (a b : Conversation.t) : Prop :=
  Conversation.updated_at b <= Conversation.updated_at a.

(** What the unique constraint of [api_keys] is about. *)
Definition key_slot (k : ApiKey.t) : Z * ProviderEnum :=
  (ApiKey.user_id k, ApiKey.provider k).

Definition one_key_per_slot (d : Database) : Prop :=
  NoDup (map key_slot (api_keys d)).

(** The filter of the key lookup. *)
Definition slot_test (uid : Z) (p : ProviderEnum) (k : ApiKey.t) : bool :=
  (ApiKey.user_id k =? uid) && ProviderEnum_eqb (ApiKey.provider k) p.

(** The message class [LangGraphService.chat] uses for a stored message. *)
Definition as_langchain (m : Message.t) : LangChainMessage :=
  match Message.role m with
  | USER => HumanMessage (Message.content m)
  | ASSISTANT => AIMessage (Message.content m)
  | SYSTEM => SystemMessage (Message.content m)
  end.

Definition is_system (m : Message.t) : bool :=
  match Message.role m with
  | SYSTEM => true
  | _ => false
  end.

(** The model name a service was built with. *)
Definition model_of (service : BaseAIService) : str :=
  match service with
  | LangGraphService (ChatOpenAI _ model) => model
  | LangGraphService (ChatAnthropic _ model) => model
  | OpenAIDirectService _ model => model
  | AnthropicDirectService _ model => model
  end.

(** A second concrete deployment: Alice owns conversations 7 and 9, Bob
    owns 8; conversation 9 names a strategy the factory does not know. *)
Module Office.

Definition conversation8 : Conversation.t :=
  {| Conversation.id := 8; Conversation.user_id := 2;
     Conversation.title := Some (lit "Bob's chat");
     Conversation.agent_type := lit "langgraph";
     Conversation.provider := ANTHROPIC;
     Conversation.created_at := 150; Conversation.updated_at := 300 |}.

Definition conversation9 : Conversation.t :=
  {| Conversation.id := 9; Conversation.user_id := 1;
     Conversation.title := None;
     Conversation.agent_type := lit "openai_assistant";
     Conversation.provider := OPENAI;
     Conversation.created_at := 200; Conversation.updated_at := 200 |}.

Definition message (id cid : Z) (r : MessageRoleEnum) (txt : str) (at_ : Z)
    : Message.t :=
  {| Message.id := id; Message.conversation_id := cid; Message.role := r;
     Message.content := txt; Message.created_at := at_ |}.

Definition rows : list Message.t :=
  [message 1 7 USER (lit "Hi") 110;
   message 2 8 USER (lit "Hello") 160;
   message 3 7 ASSISTANT (lit "Hello there") 112;
   message 4 7 SYSTEM (lit "Be brief") 105;
   message 5 8 ASSISTANT (lit "Good day") 161].

Definition bobs_key : ApiKey.t :=
  {| ApiKey.id := 2; ApiKey.user_id := 2; ApiKey.provider := ANTHROPIC;
     ApiKey.encrypted_key := Scenario.stored_token |}.

Definition open_ : Session :=
  {| db := {| conversations :=
                [Scenario.conversation7; conversation8; conversation9];
              messages := rows;
              api_keys := [Scenario.key_row Scenario.stored_token; bobs_key];
              messages_autoinc := 6 |};
     staged := []; utcnow := 1000; commit_outcomes := [] |}.


Definition format_provider (p : ProviderEnum) : str := ProviderEnum_value p.

Definition anthropic_key : ApiKeyCreate.t :=
  {| ApiKeyCreate.provider := ANTHROPIC; ApiKeyCreate.api_key := lit "sk-test" |}.

End Office.

(* ================================================================= *)
(** * Properties *)

Unset Implicit Arguments.

(** ** Strings *)

Lemma str_eqb_eq (a b : str) : str_eqb a b = true <-> a = b.
Proof.
  revert b; induction a as [|x a IH]; intros [|y b]; simpl;
    try (split; (reflexivity || discriminate)).
  rewrite andb_true_iff, N.eqb_eq, IH.
  split; [intros [-> ->]; reflexivity | intros [= -> ->]; auto].
Qed.

Lemma str_eqb_refl (a : str) : str_eqb a a = true.
Proof. apply str_eqb_eq; reflexivity. Qed.

Lemma str_eqb_neq (a b : str) : str_eqb a b = false <-> a <> b.
Proof.
  rewrite <- str_eqb_eq. destruct (str_eqb a b); split; congruence.
Qed.

(** ** The agent factory *)

Lemma create_langgraph sdk (p : ProviderEnum) api_key model :
  AgentFactory.create sdk (lit "langgraph") (ProviderEnum_value p) api_key
                      model
  = construct sdk (langgraph_service p api_key model).
Proof. destruct p; reflexivity. Qed.

Lemma create_unknown sdk agent_type provider api_key model :
  agent_type <> lit "langgraph" ->
  agent_type <> lit "openai_direct" ->
  agent_type <> lit "anthropic_direct" ->
  AgentFactory.create sdk agent_type provider api_key model
  = Raise (ValueError
             (lit "Unknown agent_type: " ++ agent_type
              ++ lit ". Supported: langgraph, openai_direct, anthropic_direct")).
Proof.
  intros H1 H2 H3. unfold AgentFactory.create.
  apply str_eqb_neq in H1, H2, H3. rewrite H1, H2, H3. reflexivity.
Qed.

(** The messages of the two provider mismatches do not start like the
    message for an unknown tag. *)
Lemma mismatch_not_unsupported r :
  ProviderStrategyMismatch r -> ~ UnsupportedStrategy r.
Proof.
  intros [-> | ->] [a H]; vm_compute in H; discriminate H.
Qed.

(** Building a service raises what the SDK constructors raise, or returns
    the service. *)
Lemma construct_cases sdk service :
  (exists e, sdk service = Some e /\ construct sdk service = Raise e)
  \/ (sdk service = None /\ construct sdk service = Return service).
Proof.
  unfold construct. destruct (sdk service) as [e|]; [left; eauto | right; auto].
Qed.

Lemma construct_not_unsupported sdk service :
  raises_its_own sdk -> ~ UnsupportedStrategy (construct sdk service).
Proof.
  intros Hsdk HU.
  destruct (construct_cases sdk service) as [(e & He & Hr) | [_ Hr]];
    rewrite Hr in HU.
  - exact (proj1 (Hsdk service e He) HU).
  - destruct HU as [a H]. discriminate H.
Qed.

Lemma construct_not_mismatch sdk service :
  raises_its_own sdk -> ~ ProviderStrategyMismatch (construct sdk service).
Proof.
  intros Hsdk HM.
  destruct (construct_cases sdk service) as [(e & He & Hr) | [_ Hr]];
    rewrite Hr in HM.
  - exact (proj2 (Hsdk service e He) HM).
  - destruct HM as [H | H]; discriminate H.
Qed.

(** C6. Resolution in [AgentFactory.create], with SDK constructors whose
    exceptions are their own: the unknown-tag error is raised exactly when
    the tag is none of langgraph, openai_direct and anthropic_direct;
    openai_direct with any provider other than openai, and anthropic_direct
    with any provider other than anthropic, raise the provider-mismatch
    error; langgraph is resolved for the openai and for the anthropic
    provider alike: the factory raises neither error and goes on to build
    the service for that provider, which it returns unless an SDK
    constructor raises. *)
Theorem create_resolves (sdk : SDK) (agent_type provider api_key : str)
    (model : option str) :
  raises_its_own sdk ->
  (UnsupportedStrategy
     (AgentFactory.create sdk agent_type provider api_key model)
   <-> agent_type <> lit "langgraph"
       /\ agent_type <> lit "openai_direct"
       /\ agent_type <> lit "anthropic_direct")
  /\ (provider <> lit "openai" ->
      ProviderStrategyMismatch
        (AgentFactory.create sdk (lit "openai_direct") provider api_key model))
  /\ (provider <> lit "anthropic" ->
      ProviderStrategyMismatch
        (AgentFactory.create sdk (lit "anthropic_direct") provider api_key
                             model))
  /\ (forall p : ProviderEnum,
        let resolved :=
          AgentFactory.create sdk (lit "langgraph") (ProviderEnum_value p)
                              api_key model in
        ~ UnsupportedStrategy resolved
        /\ ~ ProviderStrategyMismatch resolved
        /\ resolved = construct sdk (langgraph_service p api_key model)
        /\ (sdk (langgraph_service p api_key model) = None ->
            resolved = Return (langgraph_service p api_key model))).
Proof.
  intros Hsdk. split; [split | split; [| split]].
  - (* an unknown-tag error excludes the three known tags *)
    intros HU. split; [| split]; intros ->;
      unfold AgentFactory.create, LangGraphService_init in HU;
      simpl str_eqb in HU;
      repeat match type of HU with
             | context [if ?b then _ else _] => destruct b
             end;
      try (apply (construct_not_unsupported _ _ Hsdk) in HU; exact HU);
      destruct HU as [a H]; vm_compute in H; discriminate H.
  - intros (H1 & H2 & H3). exists agent_type.
    apply create_unknown; assumption.
  - intros Hp. apply str_eqb_neq in Hp.
    unfold AgentFactory.create; simpl str_eqb. rewrite Hp. left; reflexivity.
  - intros Hp. apply str_eqb_neq in Hp.
    unfold AgentFactory.create; simpl str_eqb. rewrite Hp. right; reflexivity.
  - intros p resolved. subst resolved. rewrite create_langgraph.
    split; [now apply construct_not_unsupported|].
    split; [now apply construct_not_mismatch|].
    split; [reflexivity|].
    intros Hok. unfold construct. now rewrite Hok.
Qed.

Lemma strict_raises_its_own : raises_its_own Scenario.strict.
Proof.
  intros service e H.
  assert (He : e = UpstreamError (lit "The api_key client option must be set")).
  { unfold Scenario.strict in H.
    destruct service as [[[|c k] m | [|c k] m] | [|c k] m | [|c k] m];
      congruence. }
  subst e. split.
  - intros [a Ha]. discriminate Ha.
  - intros [Ha | Ha]; discriminate Ha.
Qed.

Lemma create_resolves_witness :
  ProviderStrategyMismatch
    (AgentFactory.create Scenario.strict (lit "openai_direct")
                         (lit "anthropic") (lit "sk-test") None)
  /\ UnsupportedStrategy
       (AgentFactory.create Scenario.strict (lit "openai_assistant")
                            (lit "openai") (lit "sk-test") None)
  /\ AgentFactory.create Scenario.strict (lit "langgraph") (lit "anthropic")
                         (lit "sk-test") None
     = Return (LangGraphService
                 (ChatAnthropic (lit "sk-test")
                                (lit "claude-3-5-sonnet-20241022"))).
Proof.
  destruct (create_resolves Scenario.strict (lit "openai_direct")
              (lit "anthropic") (lit "sk-test") None strict_raises_its_own)
    as (_ & Hmismatch & _ & Hlanggraph).
  destruct (create_resolves Scenario.strict (lit "openai_assistant")
              (lit "openai") (lit "sk-test") None strict_raises_its_own)
    as ([_ Hunknown] & _).
  split; [|split].
  - apply Hmismatch. vm_compute; discriminate.
  - apply Hunknown. repeat split; vm_compute; discriminate.
  - apply (Hlanggraph ANTHROPIC). reflexivity.
Defined.

(** ** The ownership check *)

Lemma find_none_all {A} (f : A -> bool) (l : list A) :
  (forall x, In x l -> f x = false) -> find f l = None.
Proof.
  induction l as [|a l IH]; simpl; intros H; [reflexivity|].
  rewrite (H a (or_introl eq_refl)). apply IH. intros x Hx. apply H; auto.
Qed.

(** With [id] a primary key, a row is determined by its id. *)
Lemma primary_key_unique (l : list Conversation.t) (c c' : Conversation.t) :
  NoDup (map Conversation.id l) ->
  In c l -> In c' l -> Conversation.id c = Conversation.id c' -> c = c'.
Proof.
  induction l as [|a l IH]; simpl; [tauto|].
  intros Hnd [-> | Hc] [-> | Hc'] Hid; inversion Hnd as [|? ? Hout Hnd']; subst.
  - reflexivity.
  - exfalso; apply Hout. rewrite Hid. apply in_map; exact Hc'.
  - exfalso; apply Hout. rewrite <- Hid. apply in_map; exact Hc.
  - apply IH; assumption.
Qed.

Lemma owned_conversation_found cid current_user s c :
  fst (query_conversation cid (User.id current_user) s) = Return (Some c) ->
  owned_conversation cid current_user s = (Return c, s).
Proof.
  unfold owned_conversation, query_conversation, bind, get; simpl.
  intros [= ->]. reflexivity.
Qed.

Lemma owned_conversation_missing cid current_user s :
  fst (query_conversation cid (User.id current_user) s) = Return None ->
  owned_conversation cid current_user s = (Raise Conversation_not_found, s).
Proof.
  unfold owned_conversation, query_conversation, bind, get; simpl.
  intros [= ->]. reflexivity.
Qed.

Lemma query_other_owner s cid (A B : User.t) :
  NoDup (map Conversation.id (conversations (db s))) ->
  owned_by (db s) cid A ->
  User.id A <> User.id B ->
  fst (query_conversation cid (User.id B) s) = Return None.
Proof.
  intros Hpk (c & Hin & Hid & Hown) Hne.
  unfold query_conversation, get; simpl. f_equal.
  apply find_none_all. intros x Hx.
  destruct (Z.eqb_spec (Conversation.id x) cid) as [Hx_id|]; [|reflexivity].
  assert (x = c) by (apply (@primary_key_unique _ _ _ Hpk Hx Hin); congruence).
  subst x. simpl. apply Z.eqb_neq. congruence.
Qed.

Lemma query_absent s cid (B : User.t) :
  absent (db s) cid ->
  fst (query_conversation cid (User.id B) s) = Return None.
Proof.
  intros Habs. unfold query_conversation, get; simpl. f_equal.
  apply find_none_all. intros x Hx.
  destruct (Z.eqb_spec (Conversation.id x) cid) as [Hx_id|]; [|reflexivity].
  exfalso. exact (Habs x Hx Hx_id).
Qed.

Section NotFound.

Variable F : FernetLib.
Variable settings : Settings.
Variable sdk : SDK.
Variable service_chat :
  BaseAIService -> str -> list RoleContent -> AgentStream.

(** Every operation that takes a conversation id raises the same 404 and
    leaves the session as it was when the ownership query finds nothing. *)
Lemma not_found_everywhere cid (B : User.t) s title skip limit message :
  fst (query_conversation cid (User.id B) s) = Return None ->
  let request := {| ChatRequest.conversation_id := cid;
                    ChatRequest.message := message |} in
  get_conversation cid B s = (Raise Conversation_not_found, s)
  /\ update_conversation cid title B s = (Raise Conversation_not_found, s)
  /\ delete_conversation cid B s = (Raise Conversation_not_found, s)
  /\ get_messages cid B skip limit s = (Raise Conversation_not_found, s)
  /\ post_stream F settings sdk service_chat request B s
     = Some (Raise Conversation_not_found, s)
  /\ chat_message F settings sdk service_chat request B s
     = (Raise Conversation_not_found, s).
Proof.
  intros H request.
  pose proof (@owned_conversation_missing _ _ _ H) as Hown.
  unfold get_conversation, update_conversation, delete_conversation,
    get_messages, post_stream, chat_stream, chat_message, open_turn, bind.
  subst request; simpl ChatRequest.conversation_id.
  rewrite Hown. repeat split; reflexivity.
Qed.

(** C5. A conversation id owned by user A, requested by another user B,
    gives on every operation (get, update title, delete, list messages,
    chat turn in either mode) the same 404 as an id that no conversation
    has, and the session, hence every row of A, is left as it was. *)
Theorem foreign_conversation_is_not_found
    (s s' : Session) (cid : Z) (A B : User.t)
    (title message : str) (skip limit : nat) :
  NoDup (map Conversation.id (conversations (db s))) ->
  owned_by (db s) cid A ->
  User.id A <> User.id B ->
  absent (db s') cid ->
  let request := {| ChatRequest.conversation_id := cid;
                    ChatRequest.message := message |} in
  (get_conversation cid B s = (Raise Conversation_not_found, s)
   /\ get_conversation cid B s' = (Raise Conversation_not_found, s'))
  /\ (update_conversation cid title B s = (Raise Conversation_not_found, s)
      /\ update_conversation cid title B s'
         = (Raise Conversation_not_found, s'))
  /\ (delete_conversation cid B s = (Raise Conversation_not_found, s)
      /\ delete_conversation cid B s' = (Raise Conversation_not_found, s'))
  /\ (get_messages cid B skip limit s = (Raise Conversation_not_found, s)
      /\ get_messages cid B skip limit s'
         = (Raise Conversation_not_found, s'))
  /\ (post_stream F settings sdk service_chat request B s
      = Some (Raise Conversation_not_found, s)
      /\ post_stream F settings sdk service_chat request B s'
         = Some (Raise Conversation_not_found, s'))
  /\ (chat_message F settings sdk service_chat request B s
      = (Raise Conversation_not_found, s)
      /\ chat_message F settings sdk service_chat request B s'
         = (Raise Conversation_not_found, s')).
Proof.
  intros Hpk Hown Hne Habs request.
  pose proof (@query_other_owner s cid A B Hpk Hown Hne) as Hs.
  pose proof (@query_absent s' cid B Habs) as Hs'.
  destruct (@not_found_everywhere cid B s title skip limit message Hs)
    as (G1 & G2 & G3 & G4 & G5 & G6).
  destruct (@not_found_everywhere cid B s' title skip limit message Hs')
    as (G1' & G2' & G3' & G4' & G5' & G6').
  repeat split; assumption.
Qed.

End NotFound.

Lemma foreign_conversation_is_not_found_witness :
  get_conversation 7 Scenario.bob Scenario.start
  = (Raise Conversation_not_found, Scenario.start)
  /\ get_conversation 7 Scenario.bob Scenario.blank
     = (Raise Conversation_not_found, Scenario.blank).
Proof.
  refine (proj1 (@foreign_conversation_is_not_found
                   FakeFernet.lib Scenario.settings Scenario.lenient
                   (Scenario.answers Scenario.hello_there)
                   Scenario.start Scenario.blank
                   7 Scenario.alice Scenario.bob
                   (lit "Renamed") (lit "Hi") 0 100 _ _ _ _)).
  - simpl. constructor; [intros [] | constructor].
  - exists Scenario.conversation7. simpl. auto.
  - simpl. lia.
  - intros c [].
Defined.

(** ** Before the stream: the statements both chat routes begin with *)

Section OpenTurn.

Variable F : FernetLib.
Variable settings : Settings.
Variable sdk : SDK.
Variable service_chat :
  BaseAIService -> str -> list RoleContent -> AgentStream.

Variable request : ChatRequest.t.
Variable current_user : User.t.

Lemma open_turn_no_key s conversation :
  fst (query_conversation (ChatRequest.conversation_id request) (User.id current_user) s)
  = Return (Some conversation) ->
  fst (query_api_key (User.id current_user)
                     (Conversation.provider conversation) s)
  = Return None ->
  open_turn F settings sdk request current_user s
  = (Raise (CredentialMissing (Conversation.provider conversation)), s).
Proof.
  intros Hc Hk. unfold open_turn, bind.
  rewrite (@owned_conversation_found _ _ _ _ Hc).
  unfold query_api_key, get in *. simpl in Hk. injection Hk as ->.
  reflexivity.
Qed.

Lemma open_turn_decrypt_raises s conversation api_key_record e :
  fst (query_conversation (ChatRequest.conversation_id request) (User.id current_user) s)
  = Return (Some conversation) ->
  fst (query_api_key (User.id current_user)
                     (Conversation.provider conversation) s)
  = Return (Some api_key_record) ->
  decrypt_api_key F settings (ApiKey.encrypted_key api_key_record)
  = Raise e ->
  open_turn F settings sdk request current_user s = (Raise e, s).
Proof.
  intros Hc Hk He. unfold open_turn, bind.
  rewrite (@owned_conversation_found _ _ _ _ Hc).
  unfold query_api_key, get in *. simpl in Hk. injection Hk as ->.
  unfold lift. rewrite He. reflexivity.
Qed.

(** When the opening statements return, in a session with nothing staged
    whose next commit succeeds, the only change is the user message, stamped
    with the current time; the history was read before it was written. *)
Lemma open_turn_returns s s1 service history :
  staged s = [] ->
  hd None (commit_outcomes s) = None ->
  open_turn F settings sdk request current_user s
  = (Return (service, history), s1) ->
  s1 = after_insert s (ChatRequest.conversation_id request) USER
                    (ChatRequest.message request)
  /\ fst (load_history (ChatRequest.conversation_id request) s)
     = Return history.
Proof.
  intros Hst Hco. unfold open_turn, bind.
  unfold owned_conversation, query_conversation, query_api_key, bind, get,
    raise, ret, lift.
  destruct (find _ (conversations (db s))) as [conversation|];
    [|discriminate].
  destruct (find _ (api_keys (db s))) as [api_key_record|]; [|discriminate].
  destruct (decrypt_api_key F settings _) as [api_key|]; [|discriminate].
  unfold load_history, bind, get, ret, stage, commit, try_except,
    after_insert; simpl.
  rewrite Hst.
  destruct (commit_outcomes s) as [|[e0|] rest]; simpl in Hco;
    try discriminate Hco; simpl;
    (destruct (AgentFactory.create sdk _ _ api_key None) as [svc|e]; simpl;
     [ intros [= <- <- <-]; split; reflexivity
     | destruct (is_ValueError e); discriminate ]).
Qed.


(** C8. On an owned conversation whose owner has no stored key for the
    conversation's provider, both chat routes raise the 400 for the
    missing key and return the session as it was: no message row is
    written, so the conversation has as many messages as before. *)
Theorem missing_key_writes_nothing s conversation :
  fst (query_conversation (ChatRequest.conversation_id request) (User.id current_user) s)
  = Return (Some conversation) ->
  fst (query_api_key (User.id current_user)
                     (Conversation.provider conversation) s)
  = Return None ->
  exists s',
    post_stream F settings sdk service_chat request current_user s
    = Some (Raise (CredentialMissing (Conversation.provider conversation)),
            s')
    /\ chat_message F settings sdk service_chat request current_user s
       = (Raise (CredentialMissing (Conversation.provider conversation)),
          s')
    /\ s' = s
    /\ List.length (messages_of (ChatRequest.conversation_id request) (db s'))
       = List.length (messages_of (ChatRequest.conversation_id request) (db s)).
Proof.
  intros Hc Hk. exists s.
  pose proof (@open_turn_no_key s conversation Hc Hk) as H.
  unfold post_stream, chat_stream, chat_message, bind. rewrite H.
  repeat split; reflexivity.
Qed.

(** C3, as the code has it. When decrypting the stored token raises
    [InvalidToken], both chat routes let that exception escape as it is:
    it is not turned into an [HTTPException], and nothing is written. *)
Theorem undecryptable_key_escapes s conversation api_key_record :
  fst (query_conversation (ChatRequest.conversation_id request) (User.id current_user) s)
  = Return (Some conversation) ->
  fst (query_api_key (User.id current_user)
                     (Conversation.provider conversation) s)
  = Return (Some api_key_record) ->
  decrypt_api_key F settings (ApiKey.encrypted_key api_key_record)
  = Raise InvalidToken ->
  post_stream F settings sdk service_chat request current_user s
  = Some (Raise InvalidToken, s)
  /\ chat_message F settings sdk service_chat request current_user s
     = (Raise InvalidToken, s)
  /\ ~ user_facing InvalidToken.
Proof.
  intros Hc Hk He.
  pose proof (@open_turn_decrypt_raises s conversation api_key_record InvalidToken Hc Hk He) as H.
  unfold post_stream, chat_stream, chat_message, bind. rewrite H.
  repeat split; try reflexivity.
  intros (st & d & Habs). discriminate Habs.
Qed.

End OpenTurn.

Lemma missing_key_writes_nothing_witness :
  exists s',
    post_stream FakeFernet.lib Scenario.settings Scenario.lenient
      (Scenario.answers Scenario.hello_there) Scenario.Hi Scenario.alice
      Scenario.no_key
    = Some (Raise (CredentialMissing OPENAI), s')
    /\ chat_message FakeFernet.lib Scenario.settings Scenario.lenient
         (Scenario.answers Scenario.hello_there) Scenario.Hi Scenario.alice
         Scenario.no_key
       = (Raise (CredentialMissing OPENAI), s')
    /\ s' = Scenario.no_key
    /\ List.length (messages_of 7 (db s'))
       = List.length (messages_of 7 (db Scenario.no_key)).
Proof.
  apply (@missing_key_writes_nothing FakeFernet.lib Scenario.settings
           Scenario.lenient
           (Scenario.answers Scenario.hello_there) Scenario.Hi Scenario.alice
           Scenario.no_key Scenario.conversation7);
    reflexivity.
Defined.

Lemma undecryptable_key_escapes_witness :
  post_stream FakeFernet.lib Scenario.settings Scenario.lenient
    (Scenario.answers Scenario.hello_there) Scenario.Hi Scenario.alice
    Scenario.bad_token
  = Some (Raise InvalidToken, Scenario.bad_token)
  /\ chat_message FakeFernet.lib Scenario.settings Scenario.lenient
       (Scenario.answers Scenario.hello_there) Scenario.Hi Scenario.alice
       Scenario.bad_token
     = (Raise InvalidToken, Scenario.bad_token)
  /\ ~ user_facing InvalidToken.
Proof.
  apply (@undecryptable_key_escapes FakeFernet.lib Scenario.settings
           Scenario.lenient
           (Scenario.answers Scenario.hello_there) Scenario.Hi Scenario.alice
           Scenario.bad_token Scenario.conversation7
           (Scenario.key_row (lit "not-a-token")));
    reflexivity.
Defined.

(** C3, as claimed, fails: with a stored token that is not a token, the
    streaming route ends with [InvalidToken] itself, which is no
    [HTTPException] of any status. *)
Lemma undecryptable_key_is_not_user_facing :
  decrypt_api_key FakeFernet.lib Scenario.settings (lit "not-a-token")
  = Raise InvalidToken
  /\ exists e,
       fst (chat_stream FakeFernet.lib Scenario.settings Scenario.lenient
              (Scenario.answers Scenario.hello_there) Scenario.Hi
              Scenario.alice Scenario.bad_token)
       = Raise e
       /\ ~ user_facing e.
Proof.
  split; [reflexivity|]. exists InvalidToken. split; [reflexivity|].
  intros (st & d & H). discriminate H.
Qed.

(** ** The stream: resuming the generator *)

Lemma later_later a b s : later a (later b s) = later (b + a) s.
Proof.
  unfold later; simpl. f_equal. rewrite Nat2Z.inj_add. lia.
Qed.

Lemma later_0 s : later 0 s = s.
Proof. destruct s; unfold later; simpl. f_equal. lia. Qed.

Lemma persist_ok {A} (k : Z -> M A) s cid r txt :
  staged s = [] ->
  hd None (commit_outcomes s) = None ->
  (stage (Insert cid r txt) ;;; x <- commit ;; k x) s
  = k (messages_autoinc (db s)) (after_insert s cid r txt).
Proof.
  intros Hst Hco. unfold bind, stage, commit, after_insert; simpl.
  rewrite Hst.
  destruct (commit_outcomes s) as [|[e|] rest]; simpl in *;
    try discriminate Hco; reflexivity.
Qed.

Lemma persist_fails {A} (k : Z -> M A) s cid r txt e rest :
  commit_outcomes s = Some e :: rest ->
  (stage (Insert cid r txt) ;;; x <- commit ;; k x) s
  = (Raise e, after_failed_commit s).
Proof.
  intros Hco. unfold bind, stage, commit, after_failed_commit; simpl.
  rewrite Hco. reflexivity.
Qed.

Lemma needs_rollback_twice e :
  needs_rollback (needs_rollback e) = needs_rollback e.
Proof. destruct e; reflexivity. Qed.

Lemma after_failed_commit_twice s :
  after_failed_commit (after_failed_commit s) = after_failed_commit s.
Proof.
  unfold after_failed_commit; simpl. f_equal.
  destruct (commit_outcomes s) as [|[e|] rest]; simpl;
    [| rewrite needs_rollback_twice |]; reflexivity.
Qed.

Lemma stored_content_chunk full_response dt c rest :
  stored_content (full_response ++ c) rest
  = stored_content full_response (Chunk dt c rest).
Proof.
  unfold stored_content, full_text; simpl.
  destruct (failure rest); [reflexivity|]. now rewrite app_assoc.
Qed.

Section Stream.

Variable request : ChatRequest.t.

(** Resuming after [[DONE]] with a healthy store: the message is written and
    the generator returns. *)
Lemma anext_Sent_DONE_ok full_response s :
  staged s = [] ->
  hd None (commit_outcomes s) = None ->
  anext request (Sent_DONE full_response) s
  = (Return (None, Closed),
     after_insert s (ChatRequest.conversation_id request) ASSISTANT
                  full_response).
Proof.
  intros Hst Hco. unfold anext, try_except.
  rewrite (persist_ok (fun _ => ret (None, Closed)) _ _ _ _ Hst Hco).
  reflexivity.
Qed.

(** Resuming after [[DONE]] when the commit raises [e]: the [except] block
    yields the error frame; nothing was written. *)
Lemma anext_Sent_DONE_fails full_response s e rest :
  commit_outcomes s = Some e :: rest ->
  anext request (Sent_DONE full_response) s
  = (Return (Some (error_frame e), Sent_error e), after_failed_commit s).
Proof.
  intros Hco. unfold anext, try_except.
  rewrite (persist_fails (fun _ => ret (None, Closed)) _ _ _ _ _ _ Hco).
  reflexivity.
Qed.

(** Resuming after the error frame: the error text is written. *)
Lemma anext_Sent_error_ok e s :
  staged s = [] ->
  hd None (commit_outcomes s) = None ->
  anext request (Sent_error e) s
  = (Return (None, Closed),
     after_insert s (ChatRequest.conversation_id request) ASSISTANT
                  (error_content e)).
Proof.
  intros Hst Hco. unfold anext.
  rewrite (persist_ok (fun _ => ret (None, Closed)) _ _ _ _ Hst Hco).
  reflexivity.
Qed.

(** With a healthy store, the body is one frame per chunk and then the last
    frame, the generator returns, and exactly one assistant message has been
    written, at the time the stream ended. *)
Lemma send_healthy it : forall full_response s,
  staged s = [] ->
  commit_outcomes s = [] ->
  send (resumptions (Iterating full_response it)) request
       (Iterating full_response it) s
  = Some (map frame (chunks it) ++ [last_frame it], Return tt,
          after_insert (later (duration it) s)
                       (ChatRequest.conversation_id request) ASSISTANT
                       (stored_content full_response it)).
Proof.
  induction it as [dt c rest IH | dt | dt e]; intros full_response s Hst Hco.
  - change (resumptions (Iterating full_response (Chunk dt c rest)))
      with (S (resumptions (Iterating (full_response ++ c) rest))).
    cbn [send anext]. unfold bind, sleep, ret. cbn [fst snd].
    fold (later dt s).
    rewrite (IH (full_response ++ c) (later dt s) Hst Hco).
    rewrite later_later, (stored_content_chunk _ dt). reflexivity.
  - cbn [resumptions chunks List.length Nat.add send anext].
    unfold bind, sleep, ret. fold (later dt s).
    rewrite anext_Sent_DONE_ok by (simpl; auto; rewrite Hco; reflexivity).
    unfold stored_content, last_frame, full_text. simpl.
    rewrite app_nil_r. reflexivity.
  - cbn [resumptions chunks List.length Nat.add send anext].
    unfold bind, sleep, ret. fold (later dt s).
    rewrite anext_Sent_error_ok by (simpl; auto; rewrite Hco; reflexivity).
    reflexivity.
Qed.

(** The first resumptions, up to and including the one that yields
    [[DONE]], only let time pass. *)
Lemma resume_to_DONE it : forall full_response s,
  failure it = None ->
  resume (List.length (chunks it) + 1) request (Iterating full_response it) s
  = (map frame (chunks it) ++ [DONE],
     Sent_DONE (full_response ++ full_text it),
     later (duration it) s).
Proof.
  induction it as [dt c rest IH | dt | dt e]; intros full_response s Hf;
    simpl in Hf; try discriminate Hf.
  - cbn [chunks List.length Nat.add resume anext].
    unfold bind, sleep, ret. fold (later dt s).
    rewrite (IH (full_response ++ c) (later dt s) Hf).
    rewrite later_later. unfold full_text; simpl. now rewrite app_assoc.
  - cbn [chunks List.length Nat.add resume anext].
    unfold bind, sleep, ret. fold (later dt s).
    unfold full_text; simpl. now rewrite app_nil_r.
Qed.

(** Resuming after the error frame on a session whose transaction is
    inactive: the commit of the error text raises, and nothing is
    written. *)
Lemma anext_Sent_error_fails e0 s e rest :
  commit_outcomes s = Some e :: rest ->
  anext request (Sent_error e0) s = (Raise e, after_failed_commit s).
Proof.
  intros Hco. unfold anext.
  rewrite (persist_fails (fun _ => ret (None, Closed)) _ _ _ _ _ _ Hco).
  reflexivity.
Qed.

(** A clean stream on a store whose next commit raises [e]: after [[DONE]]
    the error frame is sent, and the commit of the error text raises
    too. *)
Lemma send_commit_fails it : forall full_response s e rest,
  failure it = None ->
  commit_outcomes s = Some e :: rest ->
  send (resumptions (Iterating full_response it)) request
       (Iterating full_response it) s
  = Some (map frame (chunks it) ++ [DONE; error_frame e],
          Raise (needs_rollback e),
          after_failed_commit (later (duration it) s)).
Proof.
  induction it as [dt c tail IH | dt | dt e0];
    intros full_response s e rest Hf Hco;
    simpl in Hf; try discriminate Hf.
  - change (resumptions (Iterating full_response (Chunk dt c tail)))
      with (S (resumptions (Iterating (full_response ++ c) tail))).
    cbn [send anext]. unfold bind, sleep, ret.
    fold (later dt s).
    rewrite (IH (full_response ++ c) (later dt s) e rest Hf Hco).
    rewrite later_later. reflexivity.
  - cbn [resumptions chunks List.length Nat.add send anext].
    unfold bind, sleep, ret. fold (later dt s).
    rewrite (anext_Sent_DONE_fails full_response (later dt s) e rest)
      by exact Hco.
    rewrite (anext_Sent_error_fails e (after_failed_commit (later dt s))
               (needs_rollback e) rest)
      by (unfold after_failed_commit; simpl; now rewrite Hco).
    rewrite after_failed_commit_twice. reflexivity.
Qed.

(** The [async for] of the blocking route returns the whole text, or
    re-raises the failure; either way only time has passed. *)
Lemma collect_runs it : forall full_response s,
  collect it full_response s
  = (match failure it with
     | None => Return (full_response ++ full_text it)
     | Some e => Raise e
     end,
     later (duration it) s).
Proof.
  induction it as [dt c rest IH | dt | dt e]; intros full_response s;
    cbn [collect failure duration]; unfold bind, sleep, ret, raise;
    fold (later dt s).
  - rewrite IH, later_later. unfold full_text; simpl.
    destruct (failure rest); [reflexivity|]. now rewrite app_assoc.
  - unfold full_text; simpl. now rewrite app_nil_r.
  - reflexivity.
Qed.

End Stream.

(** ** Text inclusion *)

Lemma starts_with_app needle after : starts_with (needle ++ after) needle = true.
Proof.
  induction needle as [|x needle IH]; simpl.
  - destruct after; reflexivity.
  - now rewrite N.eqb_refl, IH.
Qed.

Lemma containsb_starts haystack needle :
  starts_with haystack needle = true -> containsb haystack needle = true.
Proof.
  intros H. destruct haystack; cbn [containsb]; rewrite H; reflexivity.
Qed.

Lemma containsb_complete haystack needle :
  contains haystack needle -> containsb haystack needle = true.
Proof.
  intros (before & after & ->).
  induction before as [|x before IH]; simpl.
  - apply containsb_starts, starts_with_app.
  - rewrite IH. apply orb_true_r.
Qed.

Lemma error_frame_not_DONE e : error_frame e <> DONE.
Proof.
  unfold error_frame, DONE, frame. intros H. vm_compute in H. discriminate H.
Qed.

(** ** Whole turns *)

Section Turn.

Variable F : FernetLib.
Variable settings : Settings.
Variable sdk : SDK.
Variable service_chat :
  BaseAIService -> str -> list RoleContent -> AgentStream.

Variable request : ChatRequest.t.
Variable current_user : User.t.

(** The streaming route on a healthy store, once the opening statements
    have returned. *)
Lemma post_stream_healthy s s1 service history :
  fresh s ->
  open_turn F settings sdk request current_user s
  = (Return (service, history), s1) ->
  let it := service_chat service (ChatRequest.message request) history in
  post_stream F settings sdk service_chat request current_user s
  = Some (Return (map frame (chunks it) ++ [last_frame it], Return tt),
          after_insert (later (duration it) s1)
                       (ChatRequest.conversation_id request) ASSISTANT
                       (stored_content [] it))
  /\ s1 = after_insert s (ChatRequest.conversation_id request) USER
                       (ChatRequest.message request).
Proof.
  intros [Hst Hco] Hopen it.
  assert (Hhd : hd None (commit_outcomes s) = None) by (now rewrite Hco).
  destruct (open_turn_returns F settings sdk request current_user
              s s1 service history Hst Hhd Hopen) as [Hs1 _].
  split; [|exact Hs1].
  unfold post_stream, chat_stream, bind. rewrite Hopen. unfold ret.
  fold it.
  rewrite (send_healthy request it [] s1).
  - reflexivity.
  - rewrite Hs1; reflexivity.
  - rewrite Hs1; simpl. now rewrite Hco.
Qed.

(** The blocking route on a healthy store, once the opening statements have
    returned. *)
Lemma chat_message_healthy s s1 service history :
  fresh s ->
  open_turn F settings sdk request current_user s
  = (Return (service, history), s1) ->
  let it := service_chat service (ChatRequest.message request) history in
  chat_message F settings sdk service_chat request current_user s
  = match failure it with
    | None =>
        (Return (full_text it, messages_autoinc (db s1)),
         after_insert (later (duration it) s1)
                      (ChatRequest.conversation_id request) ASSISTANT
                      (full_text it))
    | Some e =>
        (Raise (HTTPException HTTP_500_INTERNAL_SERVER_ERROR
                  (Text (Exception_str e))),
         later (duration it) s1)
    end.
Proof.
  intros [Hst Hco] Hopen it.
  assert (Hhd : hd None (commit_outcomes s) = None) by (now rewrite Hco).
  destruct (open_turn_returns F settings sdk request current_user
              s s1 service history Hst Hhd Hopen) as [Hs1 _].
  unfold chat_message. unfold bind at 1. rewrite Hopen.
  unfold bind at 1. unfold try_except. fold it.
  rewrite (collect_runs it [] s1).
  destruct (failure it) as [e|]; [reflexivity|].
  rewrite (persist_ok (fun message_id => ret ([] ++ full_text it, message_id))).
  - reflexivity.
  - rewrite Hs1; reflexivity.
  - rewrite Hs1; simpl. now rewrite Hco.
Qed.

Lemma appended_both s s1 dt txt :
  s1 = after_insert s (ChatRequest.conversation_id request) USER
                    (ChatRequest.message request) ->
  appended s
    (after_insert (later dt s1) (ChatRequest.conversation_id request)
                  ASSISTANT txt)
    [sent_message s request; reply_message s request dt txt].
Proof.
  intros ->. unfold appended, sent_message, reply_message; simpl.
  now rewrite <- app_assoc.
Qed.

Lemma appended_user_only s s1 dt :
  s1 = after_insert s (ChatRequest.conversation_id request) USER
                    (ChatRequest.message request) ->
  appended s (later dt s1) [sent_message s request].
Proof. intros ->. reflexivity. Qed.

(** C1, as the code has it. When the agent's stream raises [e] after some
    chunks, the streaming route sends one frame per chunk and then the frame
    with the error text, which is not the [[DONE]] frame, and appends
    exactly the user message and one assistant message; the assistant
    message holds only the error text in brackets, not the chunks received
    before the failure. *)
Theorem failed_stream_stores_error_text s s1 service history e :
  fresh s ->
  open_turn F settings sdk request current_user s
  = (Return (service, history), s1) ->
  let it := service_chat service (ChatRequest.message request) history in
  failure it = Some e ->
  exists s',
    post_stream F settings sdk service_chat request current_user s
    = Some (Return (map frame (chunks it) ++ [error_frame e], Return tt), s')
    /\ appended s s'
         [sent_message s request;
          reply_message s request (duration it) (error_content e)]
    /\ error_frame e <> DONE.
Proof.
  intros Hfresh Hopen it Hfail.
  destruct (post_stream_healthy s s1 service history Hfresh Hopen)
    as [Hpost Hs1].
  fold it in Hpost. unfold last_frame, stored_content in Hpost.
  rewrite Hfail in Hpost.
  eexists. split; [exact Hpost|]. split.
  - apply appended_both; exact Hs1.
  - apply error_frame_not_DONE.
Qed.

(** C2, as the code has it. On a clean stream both routes append the user
    message and then one assistant message with the whole text, and end in
    the same session; the assistant message is not older than the user
    message. On a failed stream the streaming route appends the user message
    and one assistant message with the error text, while the blocking route
    appends the user message only and raises a 500. *)
Theorem modes_persist_alike_on_clean_stream s s1 service history :
  fresh s ->
  open_turn F settings sdk request current_user s
  = (Return (service, history), s1) ->
  let it := service_chat service (ChatRequest.message request) history in
  (failure it = None ->
   exists s',
     post_stream F settings sdk service_chat request current_user s
     = Some (Return (map frame (chunks it) ++ [DONE], Return tt), s')
     /\ chat_message F settings sdk service_chat request current_user s
        = (Return (full_text it, messages_autoinc (db s) + 1), s')
     /\ appended s s'
          [sent_message s request;
           reply_message s request (duration it) (full_text it)]
     /\ Message.created_at (sent_message s request)
        <= Message.created_at
             (reply_message s request (duration it) (full_text it)))
  /\ (forall e, failure it = Some e ->
      exists s' s'',
        post_stream F settings sdk service_chat request current_user s
        = Some (Return (map frame (chunks it) ++ [error_frame e], Return tt),
                s')
        /\ appended s s'
             [sent_message s request;
              reply_message s request (duration it) (error_content e)]
        /\ chat_message F settings sdk service_chat request current_user s
           = (Raise (HTTPException HTTP_500_INTERNAL_SERVER_ERROR
                       (Text (Exception_str e))), s'')
        /\ appended s s'' [sent_message s request]).
Proof.
  intros Hfresh Hopen it.
  destruct (post_stream_healthy s s1 service history Hfresh Hopen)
    as [Hpost Hs1].
  pose proof (chat_message_healthy s s1 service history Hfresh Hopen) as Hmsg.
  cbv zeta in Hmsg.
  fold it in Hpost, Hmsg. unfold last_frame, stored_content in Hpost.
  split.
  - intros Hclean. rewrite Hclean in Hpost, Hmsg.
    eexists. split; [exact Hpost|]. split; [|split].
    + rewrite Hmsg. rewrite Hs1 at 1. reflexivity.
    + apply appended_both; exact Hs1.
    + simpl. lia.
  - intros e Hfail. rewrite Hfail in Hpost, Hmsg.
    eexists. eexists. split; [exact Hpost|]. split; [|split].
    + apply appended_both; exact Hs1.
    + exact Hmsg.
    + apply appended_user_only; exact Hs1.
Qed.

(** C4, as the code has it. A missing key is reported with a fixed 400 that
    names the provider, and an exception raised by decryption leaves the
    routes unformatted; but when the agent's stream raises [e], the text of
    [e] reaches the caller word for word: the streaming route ends the body
    with the frame ["data: Error: " + str(e)], and the blocking route raises
    a 500 whose detail is [str(e)]. *)
Theorem upstream_error_text_reaches_caller s s1 service history e :
  fresh s ->
  open_turn F settings sdk request current_user s
  = (Return (service, history), s1) ->
  let it := service_chat service (ChatRequest.message request) history in
  failure it = Some e ->
  exists s' s'',
    post_stream F settings sdk service_chat request current_user s
    = Some (Return (map frame (chunks it)
                    ++ [frame (lit "Error: " ++ Exception_str e)],
                    Return tt), s')
    /\ contains (frame (lit "Error: " ++ Exception_str e)) (Exception_str e)
    /\ chat_message F settings sdk service_chat request current_user s
       = (Raise (HTTPException HTTP_500_INTERNAL_SERVER_ERROR
                   (Text (Exception_str e))), s'').
Proof.
  intros Hfresh Hopen it Hfail.
  destruct (post_stream_healthy s s1 service history Hfresh Hopen)
    as [Hpost _].
  pose proof (chat_message_healthy s s1 service history Hfresh Hopen) as Hmsg.
  cbv zeta in Hmsg.
  fold it in Hpost, Hmsg. unfold last_frame in Hpost.
  rewrite Hfail in Hpost, Hmsg.
  eexists. eexists. split; [exact Hpost|]. split; [|exact Hmsg].
  exists (lit "data: Error: "), [10%N; 10%N]. unfold frame.
  now rewrite <- !app_assoc.
Qed.

(** C10. On a clean stream the caller has received every chunk frame and
    the [[DONE]] frame while nothing has been written or staged yet: the
    assistant message is stored by the resumption after that.  So when that
    commit raises [e], the body is the chunk frames, [[DONE]], and then the
    error frame.  The [except] block then adds the error text as a message
    and commits on the same session, whose failed transaction nothing has
    rolled back: this commit raises [PendingRollbackError], the generator
    ends with it, and the turn has stored the user message and no assistant
    message, neither the response nor the error text. *)
Theorem done_is_sent_before_the_reply_is_stored s s1 service history :
  staged s = [] ->
  hd None (commit_outcomes s) = None ->
  open_turn F settings sdk request current_user s
  = (Return (service, history), s1) ->
  let it := service_chat service (ChatRequest.message request) history in
  failure it = None ->
  (exists s2,
     resume (List.length (chunks it) + 1) request (Iterating [] it) s1
     = (map frame (chunks it) ++ [DONE], Sent_DONE (full_text it), s2)
     /\ db s2 = db s1 /\ staged s2 = [])
  /\ (forall e rest, tl (commit_outcomes s) = Some e :: rest ->
      exists s',
        post_stream F settings sdk service_chat request current_user s
        = Some (Return (map frame (chunks it) ++ [DONE; error_frame e],
                        Raise (needs_rollback e)), s')
        /\ appended s s' [sent_message s request]
        /\ Forall (fun m => Message.role m <> ASSISTANT)
                  [sent_message s request]).
Proof.
  intros Hst Hhd Hopen it Hclean.
  destruct (open_turn_returns F settings sdk request current_user
              s s1 service history Hst Hhd Hopen) as [Hs1 _].
  split.
  - eexists. split; [apply resume_to_DONE; exact Hclean|].
    split; [reflexivity|]. rewrite Hs1; reflexivity.
  - intros e rest Htl.
    unfold post_stream, chat_stream, bind. rewrite Hopen. unfold ret.
    fold it.
    rewrite (send_commit_fails request it [] s1 e rest Hclean).
    + eexists. split; [reflexivity|]. split.
      * rewrite Hs1. reflexivity.
      * constructor; [discriminate | constructor].
    + rewrite Hs1; simpl. exact Htl.
Qed.

End Turn.

(** ** The turns of the concrete deployment *)

Lemma failed_stream_stores_error_text_witness :
  exists s',
    post_stream FakeFernet.lib Scenario.settings Scenario.lenient
      (Scenario.answers Scenario.hello_boom) Scenario.Hi Scenario.alice
      Scenario.start
    = Some (Return ([frame (lit "Hello"); frame (lit "Error: boom")],
                    Return tt), s')
    /\ appended Scenario.start s'
         [sent_message Scenario.start Scenario.Hi;
          reply_message Scenario.start Scenario.Hi 2 (lit "[Error: boom]")]
    /\ error_frame (UpstreamError (lit "boom")) <> DONE.
Proof.
  apply (failed_stream_stores_error_text FakeFernet.lib Scenario.settings
           Scenario.lenient
           (Scenario.answers Scenario.hello_boom) Scenario.Hi Scenario.alice
           Scenario.start
           (after_insert Scenario.start 7 USER (lit "Hi"))
           (OpenAIDirectService (lit "sk-test") (lit "gpt-4-turbo-preview"))
           [] (UpstreamError (lit "boom")));
    [split; reflexivity | reflexivity | reflexivity].
Defined.

(** C1, as claimed, fails: the agent produced ["Hello"] and then raised; the
    one assistant message stored is ["[Error: boom]"], which does not
    contain ["Hello"]. *)
Lemma failed_stream_drops_partial_text :
  exists body s' user_message assistant_message,
    post_stream FakeFernet.lib Scenario.settings Scenario.lenient
      (Scenario.answers Scenario.hello_boom) Scenario.Hi Scenario.alice
      Scenario.start
    = Some (Return body, s')
    /\ full_text Scenario.hello_boom = lit "Hello"
    /\ failure Scenario.hello_boom = Some (UpstreamError (lit "boom"))
    /\ messages (db s') = [user_message; assistant_message]
    /\ Message.role assistant_message = ASSISTANT
    /\ Message.content assistant_message = lit "[Error: boom]"
    /\ ~ contains (Message.content assistant_message)
                  (full_text Scenario.hello_boom).
Proof.
  do 4 eexists. split; [vm_compute; reflexivity|].
  repeat split.
  intros H. apply containsb_complete in H. vm_compute in H. discriminate H.
Qed.

Lemma modes_persist_alike_on_clean_stream_witness :
  exists s',
    post_stream FakeFernet.lib Scenario.settings Scenario.lenient
      (Scenario.answers Scenario.hello_there) Scenario.Hi Scenario.alice
      Scenario.start
    = Some (Return ([frame (lit "Hello"); frame (lit " there"); DONE],
                    Return tt), s')
    /\ chat_message FakeFernet.lib Scenario.settings Scenario.lenient
         (Scenario.answers Scenario.hello_there) Scenario.Hi Scenario.alice
         Scenario.start
       = (Return (lit "Hello there", 2), s')
    /\ appended Scenario.start s'
         [sent_message Scenario.start Scenario.Hi;
          reply_message Scenario.start Scenario.Hi 2 (lit "Hello there")]
    /\ Message.created_at (sent_message Scenario.start Scenario.Hi)
       <= Message.created_at
            (reply_message Scenario.start Scenario.Hi 2 (lit "Hello there")).
Proof.
  apply (modes_persist_alike_on_clean_stream FakeFernet.lib Scenario.settings
           Scenario.lenient
           (Scenario.answers Scenario.hello_there) Scenario.Hi Scenario.alice
           Scenario.start
           (after_insert Scenario.start 7 USER (lit "Hi"))
           (OpenAIDirectService (lit "sk-test") (lit "gpt-4-turbo-preview"))
           []);
    [split; reflexivity | reflexivity | reflexivity].
Defined.

(** C2, as claimed, fails: after the same failed stream the streaming route
    has stored two messages and the blocking route one. *)
Lemma modes_differ_on_failed_stream :
  exists body s' e s'',
    post_stream FakeFernet.lib Scenario.settings Scenario.lenient
      (Scenario.answers Scenario.hello_boom) Scenario.Hi Scenario.alice
      Scenario.start
    = Some (Return body, s')
    /\ chat_message FakeFernet.lib Scenario.settings Scenario.lenient
         (Scenario.answers Scenario.hello_boom) Scenario.Hi Scenario.alice
         Scenario.start
       = (Raise e, s'')
    /\ List.length (filter (fun m => match Message.role m with
                                     | ASSISTANT => true
                                     | _ => false
                                     end) (messages (db s'))) = 1%nat
    /\ List.length (filter (fun m => match Message.role m with
                                     | ASSISTANT => true
                                     | _ => false
                                     end) (messages (db s''))) = 0%nat
    /\ messages (db s') <> messages (db s'').
Proof.
  do 4 eexists. split; [vm_compute; reflexivity|].
  split; [vm_compute; reflexivity|].
  repeat split. simpl. discriminate.
Qed.

Lemma upstream_error_text_reaches_caller_witness :
  exists s' s'',
    post_stream FakeFernet.lib Scenario.settings Scenario.lenient
      (Scenario.answers Scenario.hello_boom) Scenario.Hi Scenario.alice
      Scenario.start
    = Some (Return ([frame (lit "Hello"); frame (lit "Error: boom")],
                    Return tt), s')
    /\ contains (frame (lit "Error: boom")) (lit "boom")
    /\ chat_message FakeFernet.lib Scenario.settings Scenario.lenient
         (Scenario.answers Scenario.hello_boom) Scenario.Hi Scenario.alice
         Scenario.start
       = (Raise (HTTPException 500 (Text (lit "boom"))), s'').
Proof.
  apply (upstream_error_text_reaches_caller FakeFernet.lib Scenario.settings
           Scenario.lenient
           (Scenario.answers Scenario.hello_boom) Scenario.Hi Scenario.alice
           Scenario.start
           (after_insert Scenario.start 7 USER (lit "Hi"))
           (OpenAIDirectService (lit "sk-test") (lit "gpt-4-turbo-preview"))
           [] (UpstreamError (lit "boom")));
    [split; reflexivity | reflexivity | reflexivity].
Defined.

(** C4, as claimed, fails: the provider's exception text ["boom"] is in the
    last frame of the streamed body and is the detail of the blocking
    route's 500. *)
Lemma upstream_error_text_is_exposed :
  exists body s' s'',
    post_stream FakeFernet.lib Scenario.settings Scenario.lenient
      (Scenario.answers Scenario.hello_boom) Scenario.Hi Scenario.alice
      Scenario.start
    = Some (Return (body, Return tt), s')
    /\ failure Scenario.hello_boom = Some (UpstreamError (lit "boom"))
    /\ contains (last body []) (Exception_str (UpstreamError (lit "boom")))
    /\ chat_message FakeFernet.lib Scenario.settings Scenario.lenient
         (Scenario.answers Scenario.hello_boom) Scenario.Hi Scenario.alice
         Scenario.start
       = (Raise (HTTPException 500
                   (Text (Exception_str (UpstreamError (lit "boom"))))),
          s'').
Proof.
  do 3 eexists. split; [vm_compute; reflexivity|].
  split; [reflexivity|]. split; [|vm_compute; reflexivity].
  exists (lit "data: Error: "), [10%N; 10%N]. reflexivity.
Qed.

Lemma done_is_sent_before_the_reply_is_stored_witness :
  (exists s2,
     resume 3 Scenario.Hi (Iterating [] Scenario.hello_there)
            (after_insert Scenario.flaky 7 USER (lit "Hi"))
     = ([frame (lit "Hello"); frame (lit " there"); DONE],
        Sent_DONE (lit "Hello there"), s2)
     /\ db s2 = db (after_insert Scenario.flaky 7 USER (lit "Hi"))
     /\ staged s2 = [])
  /\ exists s',
       post_stream FakeFernet.lib Scenario.settings Scenario.lenient
         (Scenario.answers Scenario.hello_there) Scenario.Hi Scenario.alice
         Scenario.flaky
       = Some (Return ([frame (lit "Hello"); frame (lit " there"); DONE;
                        frame (lit "Error: server has gone away")],
                       Raise (PendingRollbackError
                                (lit "server has gone away"))), s')
       /\ messages (db s') = [sent_message Scenario.flaky Scenario.Hi].
Proof.
  destruct (done_is_sent_before_the_reply_is_stored FakeFernet.lib
              Scenario.settings Scenario.lenient
              (Scenario.answers Scenario.hello_there) Scenario.Hi
              Scenario.alice Scenario.flaky
              (after_insert Scenario.flaky 7 USER (lit "Hi"))
              (OpenAIDirectService (lit "sk-test") (lit "gpt-4-turbo-preview"))
              [] eq_refl eq_refl eq_refl eq_refl)
    as [Hdone Hfails].
  split; [exact Hdone|].
  destruct (Hfails (DatabaseError (lit "server has gone away")) [] eq_refl)
    as (s' & Hpost & Happ & _).
  exists s'. split; [exact Hpost | exact Happ].
Defined.

(** ** The history window *)





Lemma in_firstn {A} n : forall (l : list A) x, In x (firstn n l) -> In x l.
Proof.
  induction n as [|n IH]; intros [|a l] x; simpl; try tauto.
  intros [-> | H]; auto.
Qed.

Lemma in_skipn {A} n : forall (l : list A) x, In x (skipn n l) -> In x l.
Proof.
  induction n as [|n IH]; intros [|a l] x; simpl; try tauto.
  intros H; right; auto.
Qed.

Lemma firstn_sorted {A} (R : A -> A -> Prop) n : forall l,
  StronglySorted R l -> StronglySorted R (firstn n l).
Proof.
  induction n as [|n IH]; intros l Hl; [constructor|].
  destruct Hl as [|a l Hl Ha]; simpl; constructor; auto.
  rewrite Forall_forall in *. intros y Hy. apply Ha.
  eapply in_firstn; exact Hy.
Qed.






Section History.

Variable F : FernetLib.
Variable settings : Settings.
Variable sdk : SDK.
Variable service_chat :
  BaseAIService -> str -> list RoleContent -> AgentStream.

Variable request : ChatRequest.t.
Variable current_user : User.t.


End History.


(** With the 25 earlier messages of the concrete deployment, the agent is
    called with messages 6 to 25, in that order, whatever it answers. *)
Lemma history_of_25 service_chat :
  fst (chat_stream FakeFernet.lib Scenario.settings Scenario.lenient
         service_chat Scenario.Hi Scenario.alice Scenario.long_history)
  = Return
      (Iterating []
         (service_chat
            (OpenAIDirectService (lit "sk-test") (lit "gpt-4-turbo-preview"))
            (lit "Hi")
            (map (fun i => as_role_content (Scenario.earlier (Z.of_nat i)))
                 (seq 6 20)))).
Proof. reflexivity. Qed.

(** ** The codec: [str.encode()] and [bytes.decode()] *)

(** [lia] with division and remainder by constants. *)
Ltac Zify.zify_post_hook ::= Z.to_euclidean_division_equations.

Section Codec.

Open Scope N_scope.

Ltac decide_test :=
  match goal with
  | |- context [N.ltb ?a ?b] =>
      first [ replace (N.ltb a b) with true by (symmetry; apply N.ltb_lt; lia)
            | replace (N.ltb a b) with false by (symmetry; apply N.ltb_ge; lia) ]
  | |- context [N.leb ?a ?b] =>
      first [ replace (N.leb a b) with true by (symmetry; apply N.leb_le; lia)
            | replace (N.leb a b) with false by (symmetry; apply N.leb_gt; lia) ]
  end.

Lemma is_surrogate_false c :
  is_surrogate c = false <-> c < 0xD800 \/ 0xDFFF < c.
Proof.
  unfold is_surrogate. rewrite andb_false_iff, N.leb_gt, N.leb_gt. tauto.
Qed.

Local Opaque N.add N.sub N.mul N.div N.modulo N.ltb N.leb.

Lemma decode_encode_char c b rest :
  utf8_encode_char c = Some b ->
  bytes_decode (b ++ rest) = cons_char c (bytes_decode rest).
Proof.
  unfold utf8_encode_char.
  destruct (N.ltb_spec c 0x80) as [H1|H1].
  { intros [= <-]. cbn [app bytes_decode]. now decide_test. }
  destruct (N.ltb_spec c 0x800) as [H2|H2].
  { intros [= <-]. cbn [app bytes_decode]. unfold is_continuation.
    repeat decide_test. cbn [andb]. f_equal. lia. }
  destruct (N.ltb_spec c 0x10000) as [H3|H3].
  { destruct (is_surrogate c) eqn:Hs; [discriminate|].
    intros [= <-]. cbn [app bytes_decode]. unfold is_continuation.
    apply is_surrogate_false in Hs.
    repeat decide_test. cbn [andb].
    replace ((0xE0 + c / 4096 - 0xE0) * 4096 + (0x80 + (c / 64) mod 64 - 0x80) * 64
             + (0x80 + c mod 64 - 0x80)) with c by lia.
    replace (0x800 <=? c) with true by (symmetry; apply N.leb_le; lia).
    replace (is_surrogate c) with false
      by (symmetry; apply is_surrogate_false; exact Hs).
    reflexivity. }
  destruct (N.ltb_spec c 0x110000) as [H4|H4]; [|discriminate].
  intros [= <-]. cbn [app bytes_decode]. unfold is_continuation.
  repeat decide_test. cbn [andb].
  replace ((0xF0 + c / 262144 - 0xF0) * 262144
           + (0x80 + (c / 4096) mod 64 - 0x80) * 4096
           + (0x80 + (c / 64) mod 64 - 0x80) * 64
           + (0x80 + c mod 64 - 0x80)) with c by lia.
  replace (0x10000 <=? c) with true by (symmetry; apply N.leb_le; lia).
  replace (c <? 0x110000) with true by (symmetry; apply N.ltb_lt; lia).
  reflexivity.
Qed.

Lemma cons_char_Return c r s :
  r = Return s -> cons_char c r = Return (c :: s).
Proof. intros ->. reflexivity. Qed.

(** Decoding what [str.encode()] returned gives the string back. *)
Lemma decode_encode s : forall b,
  str_encode s = Return b -> bytes_decode b = Return s.
Proof.
  induction s as [|c s IH]; intros b; cbn [str_encode].
  - intros [= <-]. reflexivity.
  - destruct (utf8_encode_char c) as [bc|] eqn:Hc; [|discriminate].
    destruct (str_encode s) as [bs|e]; [|discriminate].
    intros [= <-]. rewrite (decode_encode_char c bc bs Hc).
    apply cons_char_Return. now apply IH.
Qed.

Lemma str_encode_injective a a' b :
  str_encode a = Return b -> str_encode a' = Return b -> a = a'.
Proof.
  intros H H'. apply decode_encode in H, H'. congruence.
Qed.

Lemma utf8_encode_char_total c :
  c < 0x110000 -> is_surrogate c = false ->
  exists b, utf8_encode_char c = Some b /\ octets b.
Proof.
  intros Hc Hs. unfold utf8_encode_char. rewrite Hs.
  destruct (N.ltb_spec c 0x80); [|destruct (N.ltb_spec c 0x800);
    [|destruct (N.ltb_spec c 0x10000); [|destruct (N.ltb_spec c 0x110000)]]];
    try (eexists; split; [reflexivity|]; repeat constructor; lia).
  lia.
Qed.

Lemma utf8_encode_char_octets c b :
  utf8_encode_char c = Some b -> octets b.
Proof.
  unfold utf8_encode_char.
  destruct (N.ltb_spec c 0x80); [|destruct (N.ltb_spec c 0x800);
    [|destruct (N.ltb_spec c 0x10000);
      [destruct (is_surrogate c)|destruct (N.ltb_spec c 0x110000)]]];
    intros [= <-]; repeat constructor; lia.
Qed.

Lemma str_encode_octets s : forall b, str_encode s = Return b -> octets b.
Proof.
  induction s as [|c s IH]; intros b; cbn [str_encode].
  - intros [= <-]. constructor.
  - destruct (utf8_encode_char c) as [bc|] eqn:Hc; [|discriminate].
    destruct (str_encode s) as [bs|e]; [|discriminate].
    intros [= <-]. apply Forall_app; split.
    + exact (utf8_encode_char_octets c bc Hc).
    + now apply IH.
Qed.

(** [str.encode()] accepts every string without surrogates, and returns
    octets. *)
Lemma str_encode_total s :
  encodable s -> exists b, str_encode s = Return b /\ octets b.
Proof.
  induction 1 as [|c s [Hc Hs] _ (bs & Hbs & Hoct)]; cbn [str_encode].
  - exists []. split; [reflexivity | constructor].
  - destruct (utf8_encode_char_total c Hc Hs) as (bc & Hbc & Hoc).
    rewrite Hbc, Hbs. exists (bc ++ bs). split; [reflexivity|].
    apply Forall_app; split; assumption.
Qed.

(** On ASCII, encoding and decoding are the identity. *)
Lemma ascii_codec b :
  ascii_only b -> bytes_decode b = Return b /\ str_encode b = Return b.
Proof.
  induction 1 as [|c b Hc _ [IHd IHe]]; [split; reflexivity|].
  cbn [bytes_decode str_encode]. unfold utf8_encode_char.
  replace (c <? 0x80) with true by (symmetry; apply N.ltb_lt; exact Hc).
  rewrite IHd, IHe. split; reflexivity.
Qed.

End Codec.

(** ** The vault *)

Section Vault.

Variable F : FernetLib.
Hypothesis contract : FernetContract F.
Variable settings : Settings.
Variable key : bytes.
Variable fernet : cipher F.
Hypothesis Hkey : str_encode (ENCRYPTION_KEY settings) = Return key.
Hypothesis Hfernet : Fernet F key = Return fernet.

Lemma get_fernet_returns : _get_fernet F settings = Return fernet.
Proof. unfold _get_fernet. rewrite Hkey. exact Hfernet. Qed.

Lemma encrypt_api_key_returns r x data :
  str_encode x = Return data -> octets data ->
  encrypt_api_key F settings r x = Return (encrypt F fernet r data)
  /\ str_encode (encrypt F fernet r data) = Return (encrypt F fernet r data).
Proof.
  intros Hd Hoct. unfold encrypt_api_key.
  rewrite get_fernet_returns. cbn [and_then]. rewrite Hd. cbn [and_then].
  apply ascii_codec. exact (@token_ascii F contract key fernet r data Hfernet Hoct).
Qed.

Lemma round_trip r x :
  encodable x ->
  exists token,
    encrypt_api_key F settings r x = Return token
    /\ decrypt_api_key F settings token = Return x.
Proof.
  intros Hx. destruct (str_encode_total x Hx) as (data & Hd & Hoct).
  destruct (encrypt_api_key_returns r x data Hd Hoct) as [Henc Htok].
  exists (encrypt F fernet r data). split; [exact Henc|].
  unfold decrypt_api_key. rewrite get_fernet_returns. cbn [and_then].
  rewrite Htok. cbn [and_then].
  rewrite (@decrypt_encrypt F contract key fernet r data Hfernet Hoct).
  cbn [and_then]. now apply decode_encode.
Qed.

End Vault.

(** ** The stand-in meets the contract *)

Section Fake.

Open Scope N_scope.

Local Opaque N.add N.sub N.mul N.div N.modulo N.ltb N.leb.

Lemma unhalves_halves m :
  octets m -> FakeFernet.unhalves (FakeFernet.halves m) = Return m.
Proof.
  induction 1 as [|b m Hb _ IH]; [reflexivity|].
  cbn [FakeFernet.halves FakeFernet.unhalves].
  replace (b / 16 <? 16) with true by (symmetry; apply N.ltb_lt; lia).
  replace (b mod 16 <? 16) with true by (symmetry; apply N.ltb_lt; lia).
  cbn [andb]. rewrite IH. f_equal. f_equal. lia.
Qed.

Lemma halves_ascii m : octets m -> ascii_only (FakeFernet.halves m).
Proof.
  induction 1 as [|b m Hb _ IH]; [constructor|].
  cbn [FakeFernet.halves]. repeat constructor; try lia. exact IH.
Qed.

Lemma FakeFernet_key_ascii k f : FakeFernet.Fernet k = Return f -> f < 128.
Proof.
  unfold FakeFernet.Fernet. destruct k as [|a [|b k]]; try discriminate.
  destruct (N.ltb_spec a 128); [|discriminate]. now intros [= <-].
Qed.

Lemma FakeFernet_contract : FernetContract FakeFernet.lib.
Proof.
  constructor; cbn [FakeFernet.lib Fernet encrypt decrypt cipher entropy].
  - intros k f r m _ Hm. unfold FakeFernet.decrypt, FakeFernet.encrypt.
    rewrite N.eqb_refl. now apply unhalves_halves.
  - intros k f r m Hk Hm. unfold FakeFernet.encrypt.
    constructor; [exact (FakeFernet_key_ascii k f Hk) | now apply halves_ascii].
Qed.

End Fake.

(** ** The vault, stated for a user of [encrypt_api_key] and
    [decrypt_api_key] *)

(** X1. With a well-formed vault key and a Fernet implementation that meets
    its contract, every API key that [str.encode()] accepts is encrypted to
    a token, and decrypting that token gives the API key back. *)
Theorem vault_round_trip (F : FernetLib) (settings : Settings) (key : bytes)
    (fernet : cipher F) (r : entropy F) (x : str) :
  FernetContract F ->
  str_encode (ENCRYPTION_KEY settings) = Return key ->
  Fernet F key = Return fernet ->
  encodable x ->
  exists token,
    encrypt_api_key F settings r x = Return token
    /\ decrypt_api_key F settings token = Return x.
Proof.
  intros HF Hkey Hfernet Hx.
  exact (round_trip F HF settings key fernet Hkey Hfernet r x Hx).
Qed.

Lemma sk_test_encodable : encodable (lit "sk-test").
Proof.
  unfold encodable. repeat constructor.
Qed.

Lemma vault_round_trip_witness :
  exists token,
    encrypt_api_key FakeFernet.lib Scenario.settings tt (lit "sk-test")
    = Return token
    /\ decrypt_api_key FakeFernet.lib Scenario.settings token
       = Return (lit "sk-test").
Proof.
  apply (vault_round_trip FakeFernet.lib Scenario.settings [107%N] 107%N tt
           (lit "sk-test") FakeFernet_contract eq_refl eq_refl
           sk_test_encodable).
Defined.

(** ** More on the chat routes *)

Section MoreTurns.

Variable F : FernetLib.
Variable settings : Settings.
Variable sdk : SDK.
Variable service_chat :
  BaseAIService -> str -> list RoleContent -> AgentStream.

Variable request : ChatRequest.t.
Variable current_user : User.t.


Lemma send_S fuel g s :
  send (S fuel) request g s
  = match anext request g s with
    | (Return (Some sent, g'), s') =>
        match send fuel request g' s' with
        | Some (frames, r, s'') => Some (sent :: frames, r, s'')
        | None => None
        end
    | (Return (None, _), s') => Some ([], Return tt, s')
    | (Raise e, s') => Some ([], Raise e, s')
    end.
Proof. reflexivity. Qed.

(** After [[DONE]] or after the error frame, whatever the store does, the
    generator stops within two resumptions having written at most one
    row. *)
Lemma send_after_error e s :
  staged s = [] ->
  exists r s' rows,
    send 1 request (Sent_error e) s = Some ([], r, s')
    /\ appended s s' rows
    /\ (List.length rows <= 1)%nat
    /\ Forall (fun m => Message.role m = ASSISTANT
                        /\ Message.conversation_id m
                           = ChatRequest.conversation_id request) rows
    /\ conversations (db s') = conversations (db s)
    /\ api_keys (db s') = api_keys (db s).
Proof.
  intros Hst. rewrite send_S.
  destruct (commit_outcomes s) as [|[e'|] rest] eqn:Hco.
  - rewrite anext_Sent_error_ok by (auto; now rewrite Hco).
    eexists _, _, [_]. split; [reflexivity|].
    repeat split; simpl; auto.
  - unfold anext.
    rewrite (persist_fails (fun _ => ret (None, Closed)) _ _ _ _ _ _ Hco).
    exists (Raise e'), (after_failed_commit s), [].
    repeat split; simpl; auto. unfold appended; simpl. now rewrite app_nil_r.
  - rewrite anext_Sent_error_ok by (auto; now rewrite Hco).
    eexists _, _, [_]. split; [reflexivity|].
    repeat split; simpl; auto.
Qed.

Lemma send_after_DONE full_response s :
  staged s = [] ->
  exists frames r s' rows,
    send 2 request (Sent_DONE full_response) s = Some (frames, r, s')
    /\ appended s s' rows
    /\ (List.length rows <= 1)%nat
    /\ Forall (fun m => Message.role m = ASSISTANT
                        /\ Message.conversation_id m
                           = ChatRequest.conversation_id request) rows
    /\ conversations (db s') = conversations (db s)
    /\ api_keys (db s') = api_keys (db s).
Proof.
  intros Hst. rewrite send_S.
  destruct (commit_outcomes s) as [|[e'|] rest] eqn:Hco.
  - rewrite anext_Sent_DONE_ok by (auto; now rewrite Hco).
    eexists _, _, _, [_]. split; [reflexivity|].
    repeat split; simpl; auto.
  - rewrite (anext_Sent_DONE_fails request full_response s e' rest Hco).
    destruct (send_after_error e' (after_failed_commit s) eq_refl)
      as (r & s' & rows & Hsend & Happ & Hlen & Hrows & Hconv & Hkeys).
    rewrite Hsend. exists [error_frame e'], r, s', rows.
    repeat split; auto.
  - rewrite anext_Sent_DONE_ok by (auto; now rewrite Hco).
    eexists _, _, _, [_]. split; [reflexivity|].
    repeat split; simpl; auto.
Qed.

(** X5. Whatever the agent's stream does and whichever commits fail, the
    response body of the streaming route is finite, starts with one frame
    per chunk, and the generator writes at most one message, an assistant
    message of the request's conversation: never two. *)
Theorem stream_stores_at_most_one_reply it : forall full_response s,
  staged s = [] ->
  exists frames r s' rows,
    send (resumptions (Iterating full_response it)) request
         (Iterating full_response it) s
    = Some (frames, r, s')
    /\ firstn (List.length (chunks it)) frames = map frame (chunks it)
    /\ appended s s' rows
    /\ (List.length rows <= 1)%nat
    /\ Forall (fun m => Message.role m = ASSISTANT
                        /\ Message.conversation_id m
                           = ChatRequest.conversation_id request) rows
    /\ conversations (db s') = conversations (db s)
    /\ api_keys (db s') = api_keys (db s).
Proof.
  induction it as [dt c rest IH | dt | dt e]; intros full_response s Hst.
  - change (resumptions (Iterating full_response (Chunk dt c rest)))
      with (S (resumptions (Iterating (full_response ++ c) rest))).
    rewrite send_S. cbn [anext]. unfold bind, sleep, ret. fold (later dt s).
    destruct (IH (full_response ++ c) (later dt s) Hst)
      as (frames & r & s' & rows & Hsend & Hfr & Happ & Hrest).
    rewrite Hsend. exists (frame c :: frames), r, s', rows.
    split; [reflexivity|]. split; [simpl; now rewrite Hfr|].
    split; [exact Happ | exact Hrest].
  - cbn [resumptions chunks List.length Nat.add]. rewrite send_S.
    cbn [anext]. unfold bind, sleep, ret. fold (later dt s).
    destruct (send_after_DONE full_response (later dt s) Hst)
      as (frames & r & s' & rows & Hsend & Happ & Hrest).
    rewrite Hsend. exists (DONE :: frames), r, s', rows.
    split; [reflexivity|]. split; [reflexivity|].
    split; [exact Happ | exact Hrest].
  - cbn [resumptions chunks List.length Nat.add]. rewrite send_S.
    cbn [anext]. unfold bind, sleep, ret. fold (later dt s).
    assert (Hfuel : send 2 request (Sent_error e) (later dt s)
                    = send 1 request (Sent_error e) (later dt s)).
    { rewrite !send_S.
      destruct (anext request (Sent_error e) (later dt s))
        as [[[[sent|] g']|e'] s'] eqn:E; try reflexivity.
      exfalso. unfold anext, bind, stage, commit, ret in E; simpl in E.
      destruct (commit_outcomes s) as [|[e0|] rest0]; discriminate E. }
    rewrite Hfuel.
    destruct (send_after_error e (later dt s) Hst)
      as (r & s' & rows & Hsend & Happ & Hrest).
    rewrite Hsend. exists [error_frame e], r, s', rows.
    split; [reflexivity|]. split; [reflexivity|].
    split; [exact Happ | exact Hrest].
Qed.

Lemma messages_of_after_insert s cid r txt cid' :
  cid' <> cid ->
  messages_of cid' (db (after_insert s cid r txt)) = messages_of cid' (db s).
Proof.
  intros Hne. unfold messages_of, after_insert; simpl.
  rewrite filter_app; simpl.
  replace (cid =? cid') with false by (symmetry; apply Z.eqb_neq; congruence).
  apply app_nil_r.
Qed.

(** X6. A chat turn, in either mode and whether the agent's stream ends
    cleanly or fails, changes nothing but the messages of its own
    conversation: the conversations table (so also the conversation's
    [updated_at]), the stored keys and the messages of every other
    conversation are as before. *)
Theorem turn_touches_only_its_conversation s s1 service history :
  fresh s ->
  open_turn F settings sdk request current_user s
  = (Return (service, history), s1) ->
  exists body s' result s'',
    post_stream F settings sdk service_chat request current_user s
    = Some (body, s')
    /\ chat_message F settings sdk service_chat request current_user s
       = (result, s'')
    /\ conversations (db s') = conversations (db s)
    /\ conversations (db s'') = conversations (db s)
    /\ api_keys (db s') = api_keys (db s)
    /\ api_keys (db s'') = api_keys (db s)
    /\ (forall cid', cid' <> ChatRequest.conversation_id request ->
        messages_of cid' (db s') = messages_of cid' (db s)
        /\ messages_of cid' (db s'') = messages_of cid' (db s)).
Proof.
  intros Hfresh Hopen.
  destruct (post_stream_healthy F settings sdk service_chat request current_user
              s s1 service history Hfresh Hopen) as [Hpost Hs1].
  pose proof (chat_message_healthy F settings sdk service_chat request
                current_user s s1 service history Hfresh Hopen) as Hmsg.
  cbv zeta in Hmsg, Hpost.
  set (it := service_chat service (ChatRequest.message request) history) in *.
  rewrite Hpost.
  destruct (failure it) as [e|]; rewrite Hmsg; subst s1;
    do 4 eexists; (split; [reflexivity|]); (split; [reflexivity|]);
    repeat split; try reflexivity;
    try (rewrite !messages_of_after_insert by assumption; reflexivity);
    rewrite ?messages_of_after_insert by assumption;
    unfold later, messages_of; simpl;
    try (rewrite !filter_app; simpl;
         replace (ChatRequest.conversation_id request =? cid') with false
           by (symmetry; apply Z.eqb_neq; congruence);
         now rewrite !app_nil_r).
Qed.

(** X7. With a healthy store, the last frame of the streamed body is the
    [[DONE]] frame exactly when the agent's stream ended without raising. *)
Theorem done_means_clean s s1 service history :
  fresh s ->
  open_turn F settings sdk request current_user s
  = (Return (service, history), s1) ->
  exists frames s',
    post_stream F settings sdk service_chat request current_user s
    = Some (Return (frames, Return tt), s')
    /\ (last frames [] = DONE
        <-> failure (service_chat service (ChatRequest.message request)
                                  history) = None).
Proof.
  intros Hfresh Hopen.
  destruct (post_stream_healthy F settings sdk service_chat request current_user
              s s1 service history Hfresh Hopen) as [Hpost _].
  cbv zeta in Hpost.
  set (it := service_chat service (ChatRequest.message request) history) in *.
  do 2 eexists. split; [exact Hpost|].
  rewrite last_last. unfold last_frame.
  destruct (failure it) as [e|]; split; try reflexivity; try discriminate.
Qed.

End MoreTurns.


Lemma stream_stores_at_most_one_reply_witness :
  exists frames r s' rows,
    send 4 Scenario.Hi (Iterating [] Scenario.hello_boom)
         (Scenario.session (Scenario.database [] [])
            [Some (DatabaseError (lit "server has gone away"))])
    = Some (frames, r, s')
    /\ firstn 1 frames = [frame (lit "Hello")]
    /\ appended (Scenario.session (Scenario.database [] [])
                   [Some (DatabaseError (lit "server has gone away"))])
                s' rows
    /\ (List.length rows <= 1)%nat
    /\ Forall (fun m => Message.role m = ASSISTANT
                        /\ Message.conversation_id m = 7) rows
    /\ conversations (db s')
       = conversations (db (Scenario.session (Scenario.database [] [])
                              [Some (DatabaseError
                                       (lit "server has gone away"))]))
    /\ api_keys (db s')
       = api_keys (db (Scenario.session (Scenario.database [] [])
                         [Some (DatabaseError (lit "server has gone away"))])).
Proof.
  apply (stream_stores_at_most_one_reply Scenario.Hi Scenario.hello_boom []
           (Scenario.session (Scenario.database [] [])
              [Some (DatabaseError (lit "server has gone away"))])).
  reflexivity.
Defined.

Lemma turn_touches_only_its_conversation_witness :
  exists body s' result s'',
    post_stream FakeFernet.lib Scenario.settings Scenario.lenient
      (Scenario.answers Scenario.hello_boom) Scenario.Hi Scenario.alice
      Office.open_
    = Some (body, s')
    /\ chat_message FakeFernet.lib Scenario.settings Scenario.lenient
         (Scenario.answers Scenario.hello_boom) Scenario.Hi Scenario.alice
         Office.open_
       = (result, s'')
    /\ conversations (db s') = conversations (db Office.open_)
    /\ conversations (db s'') = conversations (db Office.open_)
    /\ api_keys (db s') = api_keys (db Office.open_)
    /\ api_keys (db s'') = api_keys (db Office.open_)
    /\ (forall cid', cid' <> 7 ->
        messages_of cid' (db s') = messages_of cid' (db Office.open_)
        /\ messages_of cid' (db s'') = messages_of cid' (db Office.open_)).
Proof.
  apply (turn_touches_only_its_conversation FakeFernet.lib Scenario.settings
           Scenario.lenient
           (Scenario.answers Scenario.hello_boom) Scenario.Hi Scenario.alice
           Office.open_
           (after_insert Office.open_ 7 USER (lit "Hi"))
           (OpenAIDirectService (lit "sk-test") (lit "gpt-4-turbo-preview"))
           (map as_role_content
              [Office.message 4 7 SYSTEM (lit "Be brief") 105;
               Office.message 1 7 USER (lit "Hi") 110;
               Office.message 3 7 ASSISTANT (lit "Hello there") 112]));
    [split; reflexivity | reflexivity].
Defined.

Lemma done_means_clean_witness :
  exists frames s',
    post_stream FakeFernet.lib Scenario.settings Scenario.lenient
      (Scenario.answers Scenario.hello_there) Scenario.Hi Scenario.alice
      Scenario.start
    = Some (Return (frames, Return tt), s')
    /\ (last frames [] = DONE <-> failure Scenario.hello_there = None).
Proof.
  apply (done_means_clean FakeFernet.lib Scenario.settings
           Scenario.lenient
           (Scenario.answers Scenario.hello_there) Scenario.Hi Scenario.alice
           Scenario.start
           (after_insert Scenario.start 7 USER (lit "Hi"))
           (OpenAIDirectService (lit "sk-test") (lit "gpt-4-turbo-preview"))
           []);
    [split; reflexivity | reflexivity].
Defined.

(** ** The conversation routes, when the conversation is found *)

Lemma find_map_same {A} (p : A -> bool) (f : A -> A) (l : list A) :
  (forall x, p (f x) = p x) ->
  find p (map f l) = option_map f (find p l).
Proof.
  intros Hp. induction l as [|a l IH]; simpl; [reflexivity|].
  rewrite Hp. destruct (p a); [reflexivity | exact IH].
Qed.

Lemma set_title_id cid t at_ c :
  Conversation.id (set_title cid t at_ c) = Conversation.id c.
Proof. unfold set_title. destruct (Conversation.id c =? cid); reflexivity. Qed.

Lemma set_title_user_id cid t at_ c :
  Conversation.user_id (set_title cid t at_ c) = Conversation.user_id c.
Proof. unfold set_title. destruct (Conversation.id c =? cid); reflexivity. Qed.

Lemma set_title_other cid t at_ c :
  Conversation.id c <> cid -> set_title cid t at_ c = c.
Proof.
  intros H. unfold set_title.
  now replace (Conversation.id c =? cid) with false
    by (symmetry; apply Z.eqb_neq; exact H).
Qed.

Lemma query_conversation_some cid uid s c :
  fst (query_conversation cid uid s) = Return (Some c) ->
  In c (conversations (db s))
  /\ Conversation.id c = cid /\ Conversation.user_id c = uid.
Proof.
  unfold query_conversation, get; simpl. intros [= H].
  apply find_some in H. destruct H as [Hin H].
  apply andb_true_iff in H. destruct H as [H1 H2].
  apply Z.eqb_eq in H1, H2. auto.
Qed.

Lemma commit_one s c :
  fresh s ->
  (stage c ;;; commit) s
  = (Return (messages_autoinc (db s)),
     {| db := apply_change (utcnow s) (db s) c; staged := [];
        utcnow := utcnow s; commit_outcomes := [] |}).
Proof.
  intros [Hst Hco]. unfold bind, stage, commit; simpl.
  rewrite Hst, Hco. reflexivity.
Qed.

(** X8. Renaming an owned conversation, with a healthy store, returns the
    conversation with the new title and [updated_at] set to now, and stores
    exactly that: reading the conversation back gives the returned row, its
    id and owner are unchanged, every conversation with another id is as it
    was, and no message or key is touched. *)
Theorem update_conversation_renames_one
    (conversation_id : Z) (title : str) (current_user : User.t)
    (s : Session) (c : Conversation.t) :
  fresh s ->
  fst (query_conversation conversation_id (User.id current_user) s)
  = Return (Some c) ->
  exists c' s',
    update_conversation conversation_id title current_user s = (Return c', s')
    /\ Conversation.title c' = Some title
    /\ Conversation.updated_at c' = utcnow s
    /\ Conversation.id c' = Conversation.id c
    /\ Conversation.user_id c' = Conversation.user_id c
    /\ Conversation.created_at c' = Conversation.created_at c
    /\ fst (query_conversation conversation_id (User.id current_user) s')
       = Return (Some c')
    /\ (forall x, In x (conversations (db s)) ->
                  Conversation.id x <> conversation_id ->
                  In x (conversations (db s')))
    /\ List.length (conversations (db s'))
       = List.length (conversations (db s))
    /\ messages (db s') = messages (db s)
    /\ api_keys (db s') = api_keys (db s).
Proof.
  intros Hfresh Hq.
  destruct (query_conversation_some _ _ _ _ Hq) as (Hin & Hid & Huid).
  exists (set_title conversation_id title (utcnow s) c).
  eexists. split.
  - unfold update_conversation. unfold bind at 1.
    rewrite (owned_conversation_found _ _ _ _ Hq).
    unfold bind at 1. unfold get at 1.
    change (stage ?c ;;; commit ;;; ?k)
      with (bind (stage c ;;; commit) (fun _ => k)).
    unfold bind at 1. rewrite (commit_one _ _ Hfresh). reflexivity.
  - assert (Hc' : set_title conversation_id title (utcnow s) c
                  = {| Conversation.id := Conversation.id c;
                       Conversation.user_id := Conversation.user_id c;
                       Conversation.title := Some title;
                       Conversation.agent_type := Conversation.agent_type c;
                       Conversation.provider := Conversation.provider c;
                       Conversation.created_at := Conversation.created_at c;
                       Conversation.updated_at := utcnow s |}).
    { unfold set_title. rewrite Hid, Z.eqb_refl. reflexivity. }
    repeat split; try (rewrite Hc'; reflexivity).
    + unfold query_conversation, get in *; simpl in *. f_equal.
      injection Hq as Hq.
      rewrite find_map_same, Hq; [reflexivity|].
      intros x. now rewrite set_title_id, set_title_user_id.
    + intros x Hx Hne. simpl. apply in_map_iff. exists x.
      split; [now apply set_title_other | exact Hx].
    + simpl. apply length_map.
Qed.

Lemma update_conversation_renames_one_witness :
  exists c' s',
    update_conversation 7 (lit "Renamed") Scenario.alice Office.open_
    = (Return c', s')
    /\ Conversation.title c' = Some (lit "Renamed")
    /\ Conversation.updated_at c' = 1000
    /\ Conversation.id c' = 7
    /\ Conversation.user_id c' = 1
    /\ Conversation.created_at c' = 100
    /\ fst (query_conversation 7 1 s') = Return (Some c')
    /\ (forall x, In x (conversations (db Office.open_)) ->
                  Conversation.id x <> 7 ->
                  In x (conversations (db s')))
    /\ List.length (conversations (db s')) = 3%nat
    /\ messages (db s') = messages (db Office.open_)
    /\ api_keys (db s') = api_keys (db Office.open_).
Proof.
  apply (update_conversation_renames_one 7 (lit "Renamed") Scenario.alice
           Office.open_ Scenario.conversation7);
    [split; reflexivity | reflexivity].
Defined.

(** X9. Deleting an owned conversation, with a healthy store, removes the
    conversation and every message of it, and nothing else: afterwards the
    id is absent, so the same user gets the 404 for it, while every other
    conversation and the messages of every other conversation are as
    before. *)
Theorem delete_conversation_cascades
    (conversation_id : Z) (current_user : User.t)
    (s : Session) (c : Conversation.t) :
  fresh s ->
  fst (query_conversation conversation_id (User.id current_user) s)
  = Return (Some c) ->
  exists s',
    delete_conversation conversation_id current_user s = (Return tt, s')
    /\ absent (db s') conversation_id
    /\ messages_of conversation_id (db s') = []
    /\ get_conversation conversation_id current_user s'
       = (Raise Conversation_not_found, s')
    /\ (forall x, In x (conversations (db s')) <->
                  In x (conversations (db s))
                  /\ Conversation.id x <> conversation_id)
    /\ (forall cid', cid' <> conversation_id ->
                     messages_of cid' (db s') = messages_of cid' (db s))
    /\ api_keys (db s') = api_keys (db s).
Proof.
  intros Hfresh Hq.
  eexists. split.
  - unfold delete_conversation. unfold bind at 1.
    rewrite (owned_conversation_found _ _ _ _ Hq).
    change (stage ?c ;;; commit ;;; ?k)
      with (bind (stage c ;;; commit) (fun _ => k)).
    unfold bind at 1. rewrite (commit_one _ _ Hfresh). reflexivity.
  - assert (Habs : forall x,
              In x (filter (fun c0 => negb (Conversation.id c0 =? conversation_id))
                           (conversations (db s)))
              <-> In x (conversations (db s))
                  /\ Conversation.id x <> conversation_id).
    { intros x. rewrite filter_In, negb_true_iff, Z.eqb_neq. tauto. }
    split; [|split; [|split; [|split; [|split]]]].
    + intros x Hx. simpl in Hx. now apply Habs in Hx.
    + unfold messages_of; simpl.
      induction (messages (db s)) as [|m l IH]; [reflexivity|]. simpl.
      destruct (Message.conversation_id m =? conversation_id) eqn:E; simpl;
        [exact IH | rewrite E; exact IH].
    + unfold get_conversation, bind.
      rewrite owned_conversation_missing; [reflexivity|].
      unfold query_conversation, get; simpl. f_equal.
      apply find_none_all. intros x Hx. apply Habs in Hx.
      destruct Hx as [_ Hne].
      now replace (Conversation.id x =? conversation_id) with false
        by (symmetry; apply Z.eqb_neq; exact Hne).
    + exact Habs.
    + intros cid' Hne. unfold messages_of; simpl.
      induction (messages (db s)) as [|m l IH]; [reflexivity|]. simpl.
      destruct (Message.conversation_id m =? conversation_id) eqn:E; simpl.
      * apply Z.eqb_eq in E.
        replace (Message.conversation_id m =? cid') with false
          by (symmetry; apply Z.eqb_neq; congruence).
        exact IH.
      * destruct (Message.conversation_id m =? cid'); [f_equal|]; exact IH.
    + reflexivity.
Qed.

Lemma delete_conversation_cascades_witness :
  exists s',
    delete_conversation 7 Scenario.alice Office.open_ = (Return tt, s')
    /\ absent (db s') 7
    /\ messages_of 7 (db s') = []
    /\ get_conversation 7 Scenario.alice s'
       = (Raise Conversation_not_found, s')
    /\ (forall x, In x (conversations (db s')) <->
                  In x (conversations (db Office.open_))
                  /\ Conversation.id x <> 7)
    /\ (forall cid', cid' <> 7 ->
                     messages_of cid' (db s')
                     = messages_of cid' (db Office.open_))
    /\ api_keys (db s') = api_keys (db Office.open_).
Proof.
  apply (delete_conversation_cascades 7 Scenario.alice Office.open_
           Scenario.conversation7);
    [split; reflexivity | reflexivity].
Defined.

(** ** Reading messages and listing conversations *)

Lemma insert_asc_perm m l : Permutation (m :: l) (insert_asc m l).
Proof.
  induction l as [|x l IH]; simpl; [reflexivity|].
  destruct (Message.created_at m <=? Message.created_at x); [reflexivity|].
  rewrite perm_swap. now apply perm_skip.
Qed.

Lemma order_by_asc_perm l : Permutation l (order_by_created_at_asc l).
Proof.
  induction l as [|m l IH]; simpl; [constructor|].
  rewrite <- insert_asc_perm. now apply perm_skip.
Qed.

Lemma insert_asc_sorted m l :
  StronglySorted not_newer l -> StronglySorted not_newer (insert_asc m l).
Proof.
  induction 1 as [|x l Hl IH Hx]; simpl.
  - constructor; constructor.
  - destruct (Z.leb_spec (Message.created_at m) (Message.created_at x))
      as [Hle|Hlt].
    + constructor; [constructor; assumption|].
      constructor; [exact Hle|].
      rewrite Forall_forall in *. intros y Hy. specialize (Hx y Hy).
      unfold not_newer in *. lia.
    + constructor; [exact IH|].
      rewrite Forall_forall in *. intros y Hy.
      apply (Permutation_in _ (Permutation_sym (insert_asc_perm m l))) in Hy.
      destruct Hy as [<- | Hy]; [unfold not_newer; lia | auto].
Qed.

Lemma order_by_asc_sorted l :
  StronglySorted not_newer (order_by_created_at_asc l).
Proof.
  induction l as [|m l IH]; simpl; [constructor|].
  now apply insert_asc_sorted.
Qed.

(** X10. Reading an owned conversation returns that conversation and all
    of its messages, each once, oldest first, and no message of any other
    conversation; nothing is changed. *)
Theorem get_conversation_returns_its_messages
    (conversation_id : Z) (current_user : User.t)
    (s : Session) (c : Conversation.t) :
  fst (query_conversation conversation_id (User.id current_user) s)
  = Return (Some c) ->
  exists msgs,
    get_conversation conversation_id current_user s = (Return (c, msgs), s)
    /\ Permutation (messages_of conversation_id (db s)) msgs
    /\ StronglySorted not_newer msgs
    /\ (forall m, In m msgs <->
                  In m (messages (db s))
                  /\ Message.conversation_id m = conversation_id).
Proof.
  intros Hq.
  exists (order_by_created_at_asc (messages_of conversation_id (db s))).
  split; [|split; [|split]].
  - unfold get_conversation, bind.
    rewrite (owned_conversation_found _ _ _ _ Hq). reflexivity.
  - apply order_by_asc_perm.
  - apply order_by_asc_sorted.
  - intros m. split.
    + intros Hm.
      apply (Permutation_in _ (Permutation_sym (order_by_asc_perm _))) in Hm.
      unfold messages_of in Hm. apply filter_In in Hm.
      now rewrite Z.eqb_eq in Hm.
    + intros [Hin Hid].
      apply (Permutation_in _ (order_by_asc_perm _)).
      unfold messages_of. apply filter_In. now rewrite Z.eqb_eq.
Qed.

Lemma get_conversation_returns_its_messages_witness :
  exists msgs,
    get_conversation 7 Scenario.alice Office.open_
    = (Return (Scenario.conversation7, msgs), Office.open_)
    /\ Permutation (messages_of 7 (db Office.open_)) msgs
    /\ StronglySorted not_newer msgs
    /\ (forall m, In m msgs <->
                  In m (messages (db Office.open_))
                  /\ Message.conversation_id m = 7).
Proof.
  apply (get_conversation_returns_its_messages 7 Scenario.alice Office.open_
           Scenario.conversation7).
  reflexivity.
Defined.

(** X11. A page of [get_messages] on an owned conversation, for a [skip]
    and a [limit] that are not negative: the messages stored for the
    conversation, ordered by creation time, are the [skip] first ones (or
    all, if there are fewer), then the page, then the rest; the page has
    [limit] messages, or as many as are left; nothing is changed.  Which of
    two messages created at the same time comes first is left open. *)
Theorem get_messages_pages
    (conversation_id : Z) (current_user : User.t)
    (s : Session) (c : Conversation.t) (skip limit : Z) :
  0 <= skip ->
  0 <= limit ->
  fst (query_conversation conversation_id (User.id current_user) s)
  = Return (Some c) ->
  exists before page after,
    get_messages conversation_id current_user
                 (Z.to_nat skip) (Z.to_nat limit) s
    = (Return page, s)
    /\ Permutation
         (filter (fun m => Message.conversation_id m =? conversation_id)
                 (messages (db s)))
         (before ++ page ++ after)
    /\ StronglySorted not_newer (before ++ page ++ after)
    /\ Z.of_nat (List.length before)
       = Z.min skip (Z.of_nat (List.length (before ++ page ++ after)))
    /\ Z.of_nat (List.length page)
       = Z.min limit
               (Z.of_nat (List.length (before ++ page ++ after))
                - Z.of_nat (List.length before)).
Proof.
  intros Hskip Hlimit Hq.
  set (every := order_by_created_at_asc (messages_of conversation_id (db s))).
  set (a := Z.to_nat skip). set (b := Z.to_nat limit).
  assert (Hevery : firstn a every
                   ++ firstn b (skipn a every) ++ skipn b (skipn a every)
                   = every).
  { now rewrite (firstn_skipn b (skipn a every)), firstn_skipn. }
  exists (firstn a every), (firstn b (skipn a every)),
    (skipn b (skipn a every)).
  rewrite Hevery.
  split; [|split; [|split; [|split]]].
  - unfold get_messages, bind.
    rewrite (owned_conversation_found _ _ _ _ Hq). reflexivity.
  - apply order_by_asc_perm.
  - apply order_by_asc_sorted.
  - rewrite length_firstn. unfold a. lia.
  - rewrite !length_firstn, length_skipn. unfold a, b. lia.
Qed.

Lemma get_messages_pages_witness :
  exists before page after,
    get_messages 7 Scenario.alice 1 1 Office.open_
    = (Return page, Office.open_)
    /\ Permutation
         (filter (fun m => Message.conversation_id m =? 7)
                 (messages (db Office.open_)))
         (before ++ page ++ after)
    /\ StronglySorted not_newer (before ++ page ++ after)
    /\ Z.of_nat (List.length before)
       = Z.min 1 (Z.of_nat (List.length (before ++ page ++ after)))
    /\ Z.of_nat (List.length page)
       = Z.min 1 (Z.of_nat (List.length (before ++ page ++ after))
                  - Z.of_nat (List.length before)).
Proof.
  apply (get_messages_pages 7 Scenario.alice Office.open_
           Scenario.conversation7 1 1); [lia | lia | reflexivity].
Defined.

Lemma insert_updated_desc_perm c l :
  Permutation (c :: l) (insert_updated_desc c l).
Proof.
  induction l as [|x l IH]; simpl; [reflexivity|].
  destruct (Conversation.updated_at x <=? Conversation.updated_at c);
    [reflexivity|].
  rewrite perm_swap. now apply perm_skip.
Qed.

Lemma order_by_updated_perm l : Permutation l (order_by_updated_at_desc l).
Proof.
  induction l as [|c l IH]; simpl; [constructor|].
  rewrite <- insert_updated_desc_perm. now apply perm_skip.
Qed.

Lemma insert_updated_desc_sorted c l :
  StronglySorted updated_not_before l ->
  StronglySorted updated_not_before (insert_updated_desc c l).
Proof.
  induction 1 as [|x l Hl IH Hx]; simpl.
  - constructor; constructor.
  - destruct (Z.leb_spec (Conversation.updated_at x)
                         (Conversation.updated_at c)) as [Hle|Hlt].
    + constructor; [constructor; assumption|].
      constructor; [exact Hle|].
      rewrite Forall_forall in *. intros y Hy. specialize (Hx y Hy).
      unfold updated_not_before in *. lia.
    + constructor; [exact IH|].
      rewrite Forall_forall in *. intros y Hy.
      apply (Permutation_in _ (Permutation_sym
                                 (insert_updated_desc_perm c l))) in Hy.
      destruct Hy as [<- | Hy]; [unfold updated_not_before; lia | auto].
Qed.

Lemma order_by_updated_sorted l :
  StronglySorted updated_not_before (order_by_updated_at_desc l).
Proof.
  induction l as [|c l IH]; simpl; [constructor|].
  now apply insert_updated_desc_sorted.
Qed.

Lemma skipn_sorted {A} (R : A -> A -> Prop) n : forall l,
  StronglySorted R l -> StronglySorted R (skipn n l).
Proof.
  induction n as [|n IH]; intros l Hl; [exact Hl|].
  destruct Hl as [|a l Hl Ha]; simpl; [constructor | now apply IH].
Qed.

(** X12. Listing conversations never shows another user's conversation:
    every entry is a stored conversation of the current user, with the
    number of messages stored for it; there are at most [limit] entries,
    most recently updated first; and from offset 0 with a limit that is
    large enough, every conversation of the user is listed exactly once.
    Nothing is changed. *)
Theorem list_conversations_shows_own_only
    (current_user : User.t) (skip limit : nat) (s : Session) :
  exists entries,
    list_conversations current_user skip limit s = (Return entries, s)
    /\ Forall (fun entry =>
                 In (fst entry) (conversations (db s))
                 /\ Conversation.user_id (fst entry) = User.id current_user
                 /\ snd entry
                    = List.length
                        (messages_of (Conversation.id (fst entry)) (db s)))
              entries
    /\ (List.length entries <= limit)%nat
    /\ StronglySorted updated_not_before (map fst entries)
    /\ (skip = 0%nat ->
        (List.length (conversations_of (User.id current_user) (db s))
         <= limit)%nat ->
        Permutation (conversations_of (User.id current_user) (db s))
                    (map fst entries)).
Proof.
  set (own := conversations_of (User.id current_user) (db s)).
  set (page := offset_limit skip limit (order_by_updated_at_desc own)).
  exists (map (fun conv =>
                 (conv, List.length (messages_of (Conversation.id conv) (db s))))
              page).
  assert (Hfst : map fst
                   (map (fun conv =>
                           (conv, List.length
                                    (messages_of (Conversation.id conv) (db s))))
                        page) = page).
  { rewrite map_map. simpl. apply map_id. }
  split; [reflexivity|]. split; [|split; [|split]].
  - apply Forall_forall. intros entry Hentry.
    apply in_map_iff in Hentry. destruct Hentry as (conv & <- & Hconv).
    simpl. unfold page, offset_limit in Hconv.
    apply in_firstn, in_skipn in Hconv.
    apply (Permutation_in _ (Permutation_sym (order_by_updated_perm own)))
      in Hconv.
    unfold own, conversations_of in Hconv. apply filter_In in Hconv.
    destruct Hconv as [Hin Hu]. apply Z.eqb_eq in Hu. auto.
  - rewrite length_map. unfold page, offset_limit. apply firstn_le_length.
  - rewrite Hfst. unfold page, offset_limit.
    apply firstn_sorted, skipn_sorted, order_by_updated_sorted.
  - intros -> Hfit. rewrite Hfst. unfold page, offset_limit. simpl.
    rewrite firstn_all2.
    + apply order_by_updated_perm.
    + now rewrite <- (Permutation_length (order_by_updated_perm own)).
Qed.

(** ** More on the agent factory and the services *)

Lemma or_default_nonempty m default : m <> [] -> or_default (Some m) default = m.
Proof. destruct m; [congruence | reflexivity]. Qed.

(** X14. The model override of [AgentFactory.create]: whenever a service is
    created, a non-empty override is the model it uses; an empty override
    is treated like none; and without an override the model is one of the
    two defaults. *)
Theorem create_model_override (sdk : SDK) (agent_type provider api_key : str) :
  (forall m service,
     m <> [] ->
     AgentFactory.create sdk agent_type provider api_key (Some m)
     = Return service ->
     model_of service = m)
  /\ AgentFactory.create sdk agent_type provider api_key (Some [])
     = AgentFactory.create sdk agent_type provider api_key None
  /\ (forall service,
        AgentFactory.create sdk agent_type provider api_key None
        = Return service ->
        model_of service = lit "gpt-4-turbo-preview"
        \/ model_of service = lit "claude-3-5-sonnet-20241022").
Proof.
  split; [|split].
  - intros m service Hm.
    unfold AgentFactory.create, LangGraphService_init, construct.
    repeat match goal with
           | |- context [if ?b then _ else _] => destruct b
           | |- context [match sdk ?x with _ => _ end] => destruct (sdk x)
           end; intros [= <-]; simpl; try apply or_default_nonempty;
      try exact Hm.
  - reflexivity.
  - intros service.
    unfold AgentFactory.create, LangGraphService_init, construct.
    repeat match goal with
           | |- context [if ?b then _ else _] => destruct b
           | |- context [match sdk ?x with _ => _ end] => destruct (sdk x)
           end; intros [= <-]; simpl; auto.
Qed.

Lemma create_model_override_witness :
  model_of (OpenAIDirectService (lit "sk-test") (lit "gpt-4o")) = lit "gpt-4o".
Proof.
  apply (proj1 (create_model_override Scenario.strict (lit "openai_direct")
                  (lit "openai") (lit "sk-test")) (lit "gpt-4o")).
  - discriminate.
  - reflexivity.
Defined.

Lemma as_role_content_role m :
  role (as_role_content m) = MessageRoleEnum_value (Message.role m).
Proof. reflexivity. Qed.

(** X15. On a history made from stored messages, the langgraph service
    skips nothing: the agent gets one message per stored message, of the
    class of its role and in the same order, and then the new user
    message. *)
Theorem langgraph_keeps_stored_history (message : str)
    (rows : list Message.t) :
  LangGraphService_messages message (map as_role_content rows)
  = map as_langchain rows ++ [HumanMessage message].
Proof.
  unfold LangGraphService_messages. f_equal.
  induction rows as [|m rows IH]; [reflexivity|].
  cbn [map LangGraphService_history]. rewrite IH, as_role_content_role.
  unfold as_langchain. destruct (Message.role m); reflexivity.
Qed.

(** X16. On a history made from stored messages, the Anthropic direct
    service sends the user and assistant messages in order, leaves out
    every system message, and ends with the new user message. *)
Theorem anthropic_drops_system_messages (message : str)
    (rows : list Message.t) :
  AnthropicDirectService_messages message (map as_role_content rows)
  = map as_role_content (filter (fun m => negb (is_system m)) rows)
    ++ [{| role := lit "user"; content := message |}].
Proof.
  unfold AnthropicDirectService_messages. f_equal.
  induction rows as [|m rows IH]; [reflexivity|].
  cbn [map filter]. rewrite as_role_content_role. unfold is_system.
  destruct (Message.role m); simpl; rewrite IH; reflexivity.
Qed.

(** X17. The OpenAI direct service appends to the caller's own history list
    unless that list is empty: a second call with the same list therefore
    sends the first call's user message again, between the history and the
    new message, while starting from an empty list it sends the new message
    alone. *)
Theorem openai_history_is_shared (first second : str)
    (history : list RoleContent) :
  let after_first := snd (OpenAIDirectService_messages first history) in
  fst (OpenAIDirectService_messages first history)
  = history ++ [{| role := lit "user"; content := first |}]
  /\ (history <> [] ->
      fst (OpenAIDirectService_messages second after_first)
      = history ++ [{| role := lit "user"; content := first |};
                    {| role := lit "user"; content := second |}])
  /\ (history = [] ->
      fst (OpenAIDirectService_messages second after_first)
      = [{| role := lit "user"; content := second |}]).
Proof.
  destruct history as [|h history]; simpl; repeat split; try congruence.
  intros _. now rewrite <- app_assoc.
Qed.

(** ** The API key routes *)

Lemma find_app_none {A} (p : A -> bool) l x :
  find p l = None -> find p (l ++ [x]) = if p x then Some x else None.
Proof.
  induction l as [|a l IH]; simpl; [reflexivity|].
  destruct (p a); [discriminate | exact IH].
Qed.

Lemma find_app_some {A} (p : A -> bool) l x y :
  find p l = Some y -> find p (l ++ [x]) = Some y.
Proof.
  induction l as [|a l IH]; simpl; [discriminate|].
  destruct (p a); [auto | exact IH].
Qed.

Lemma find_filter_keep {A} (p q : A -> bool) l :
  (forall x, In x l -> p x = true -> q x = true) ->
  find p (filter q l) = find p l.
Proof.
  induction l as [|a l IH]; intros H; simpl; [reflexivity|].
  destruct (p a) eqn:Ep.
  - rewrite (H a (or_introl eq_refl) Ep). simpl. now rewrite Ep.
  - destruct (q a); simpl; [rewrite Ep|]; apply IH; intros x Hx;
      apply H; now right.
Qed.

Lemma find_map_keep {A} (p : A -> bool) (f : A -> A) l :
  (forall x, In x l -> p (f x) = p x) ->
  (forall x, In x l -> p x = true -> f x = x) ->
  find p (map f l) = find p l.
Proof.
  induction l as [|a l IH]; intros Hp Hf; simpl; [reflexivity|].
  rewrite (Hp a (or_introl eq_refl)). destruct (p a) eqn:Ep.
  - now rewrite (Hf a (or_introl eq_refl) Ep).
  - apply IH; intros x Hx; [apply Hp | apply Hf]; now right.
Qed.

Lemma key_primary_key (l : list ApiKey.t) (k k' : ApiKey.t) :
  NoDup (map ApiKey.id l) ->
  In k l -> In k' l -> ApiKey.id k = ApiKey.id k' -> k = k'.
Proof.
  induction l as [|a l IH]; simpl; [tauto|].
  intros Hnd [-> | Hk] [-> | Hk'] Hid; inversion Hnd as [|? ? Hout Hnd']; subst.
  - reflexivity.
  - exfalso; apply Hout. rewrite Hid. apply in_map; exact Hk'.
  - exfalso; apply Hout. rewrite <- Hid. apply in_map; exact Hk.
  - apply IH; assumption.
Qed.

Lemma ProviderEnum_eqb_eq p q : ProviderEnum_eqb p q = true <-> p = q.
Proof. destruct p, q; simpl; split; congruence. Qed.

Lemma slot_test_true uid p k :
  slot_test uid p k = true <-> key_slot k = (uid, p).
Proof.
  unfold slot_test, key_slot.
  rewrite andb_true_iff, Z.eqb_eq, ProviderEnum_eqb_eq.
  split; [intros [-> ->]; reflexivity | intros [= -> ->]; auto].
Qed.

Lemma commit_key_change_ok c s :
  fresh s ->
  commit_key_change c s
  = (Return tt,
     {| db := {| conversations := conversations (db s);
                 messages := messages (db s);
                 api_keys := apply_key_change c (api_keys (db s));
                 messages_autoinc := messages_autoinc (db s) |};
        staged := []; utcnow := utcnow s; commit_outcomes := [] |}).
Proof.
  intros [Hst Hco]. unfold commit_key_change, commit.
  rewrite Hco, Hst. reflexivity.
Qed.

Lemma NoDup_map_eq {A B} (f : A -> B) (l : list A) (x y : A) :
  NoDup (map f l) -> In x l -> In y l -> f x = f y -> x = y.
Proof.
  induction l as [|a l IH]; simpl; [tauto|].
  intros Hnd [-> | Hx] [-> | Hy] Hf; inversion Hnd as [|? ? Hout Hnd']; subst.
  - reflexivity.
  - exfalso; apply Hout. rewrite Hf. apply in_map; exact Hy.
  - exfalso; apply Hout. rewrite <- Hf. apply in_map; exact Hx.
  - apply IH; assumption.
Qed.

Lemma NoDup_map_filter {A B} (f : A -> B) (q : A -> bool) (l : list A) :
  NoDup (map f l) -> NoDup (map f (filter q l)).
Proof.
  induction l as [|a l IH]; simpl; intros Hnd; [constructor|].
  inversion Hnd as [|? ? Hout Hnd']; subst.
  destruct (q a); simpl; [|auto].
  constructor; [|auto]. intros Hin. apply Hout.
  apply in_map_iff in Hin. destruct Hin as (x & Hx & Hin).
  apply filter_In in Hin. rewrite <- Hx. apply in_map. tauto.
Qed.

Lemma set_encrypted_key_slot id token k :
  key_slot (set_encrypted_key id token k) = key_slot k.
Proof.
  unfold set_encrypted_key. destruct (ApiKey.id k =? id); reflexivity.
Qed.

Lemma slot_test_set_encrypted_key uid p id token k :
  slot_test uid p (set_encrypted_key id token k) = slot_test uid p k.
Proof.
  unfold set_encrypted_key. destruct (ApiKey.id k =? id); reflexivity.
Qed.

Lemma query_api_key_find uid p s :
  fst (query_api_key uid p s)
  = Return (find (slot_test uid p) (api_keys (db s))).
Proof. reflexivity. Qed.

Section KeyRoutes.

Variable F : FernetLib.
Variable settings : Settings.
Variable format_provider : ProviderEnum -> str.

(** What [create_api_key] stores, on a healthy store, once the key is
    encrypted. *)
Lemma create_api_key_stores r new_id key_data current_user s token :
  fresh s ->
  encrypt_api_key F settings r (ApiKeyCreate.api_key key_data)
  = Return token ->
  exists row s',
    create_api_key F settings r new_id key_data current_user s
    = (Return row, s')
    /\ key_slot row = (User.id current_user, ApiKeyCreate.provider key_data)
    /\ ApiKey.encrypted_key row = token
    /\ conversations (db s') = conversations (db s)
    /\ messages (db s') = messages (db s)
    /\ match find (slot_test (User.id current_user)
                             (ApiKeyCreate.provider key_data))
                  (api_keys (db s)) with
       | Some existing =>
           row = set_encrypted_key (ApiKey.id existing) token existing
           /\ api_keys (db s')
              = map (set_encrypted_key (ApiKey.id existing) token)
                    (api_keys (db s))
       | None =>
           ApiKey.id row = new_id
           /\ api_keys (db s') = api_keys (db s) ++ [row]
       end.
Proof.
  intros Hfresh Henc. unfold create_api_key. unfold bind at 1.
  unfold query_api_key, get. fold (slot_test (User.id current_user)
                                            (ApiKeyCreate.provider key_data)).
  destruct (find (slot_test (User.id current_user)
                            (ApiKeyCreate.provider key_data))
                 (api_keys (db s))) as [existing|] eqn:Hfind.
  - unfold bind, lift. rewrite Henc, (commit_key_change_ok _ _ Hfresh).
    unfold ret. do 2 eexists. split; [reflexivity|].
    apply find_some in Hfind. destruct Hfind as [_ Hslot].
    apply slot_test_true in Hslot.
    split; [now rewrite set_encrypted_key_slot|].
    split; [unfold set_encrypted_key; now rewrite Z.eqb_refl|].
    repeat split.
  - unfold bind, lift. rewrite Henc, (commit_key_change_ok _ _ Hfresh).
    unfold ret. do 2 eexists. split; [reflexivity|].
    repeat split.
Qed.

(** X18. Storing an API key is an upsert on the (user, provider) pair: the
    returned row is what a lookup of that pair then finds, holding the new
    token; the lookup of every other pair gives what it gave before; the
    table grows by one row exactly when the pair had no key; and if no pair
    had two keys before, none has two after. *)
Theorem create_api_key_upserts r new_id key_data current_user s token :
  fresh s ->
  NoDup (map ApiKey.id (api_keys (db s))) ->
  encrypt_api_key F settings r (ApiKeyCreate.api_key key_data)
  = Return token ->
  exists row s',
    create_api_key F settings r new_id key_data current_user s
    = (Return row, s')
    /\ key_slot row = (User.id current_user, ApiKeyCreate.provider key_data)
    /\ ApiKey.encrypted_key row = token
    /\ fst (query_api_key (User.id current_user)
                          (ApiKeyCreate.provider key_data) s')
       = Return (Some row)
    /\ (forall uid' p',
          (uid', p') <> (User.id current_user, ApiKeyCreate.provider key_data) ->
          fst (query_api_key uid' p' s') = fst (query_api_key uid' p' s))
    /\ (one_key_per_slot (db s) -> one_key_per_slot (db s'))
    /\ List.length (api_keys (db s'))
       = match fst (query_api_key (User.id current_user)
                                  (ApiKeyCreate.provider key_data) s) with
         | Return None => S (List.length (api_keys (db s)))
         | _ => List.length (api_keys (db s))
         end
    /\ conversations (db s') = conversations (db s)
    /\ messages (db s') = messages (db s).
Proof.
  clear format_provider. intros Hfresh Hpk Henc.
  destruct (create_api_key_stores r new_id key_data current_user s token
              Hfresh Henc)
    as (row & s' & Hrun & Hslot & Htok & Hconv & Hmsg & Hkeys).
  exists row, s'. split; [exact Hrun|]. split; [exact Hslot|].
  split; [exact Htok|].
  rewrite !query_api_key_find.
  set (uid := User.id current_user) in *.
  set (p := ApiKeyCreate.provider key_data) in *.
  destruct (find (slot_test uid p) (api_keys (db s))) as [existing|] eqn:Hfind.
  - destruct Hkeys as [Hrow Hkeys]. rewrite Hkeys.
    pose proof (find_some _ _ Hfind) as [Hin Hex].
    apply slot_test_true in Hex.
    split; [|split; [|split; [|split; [|split]]]]; auto.
    + rewrite find_map_same, Hfind, Hrow; [reflexivity|].
      intros x. apply slot_test_set_encrypted_key.
    + intros uid' p' Hne. rewrite !query_api_key_find, Hkeys. f_equal.
      apply find_map_keep.
      * intros x _. apply slot_test_set_encrypted_key.
      * intros x Hx Hx'. apply slot_test_true in Hx'.
        unfold set_encrypted_key.
        destruct (Z.eqb_spec (ApiKey.id x) (ApiKey.id existing)) as [Hid|];
          [|reflexivity].
        exfalso. apply Hne.
        rewrite (NoDup_map_eq ApiKey.id _ x existing Hpk Hx Hin Hid) in Hx'.
        congruence.
    + unfold one_key_per_slot. rewrite Hkeys, map_map.
      rewrite (map_ext
                 (fun x => key_slot
                             (set_encrypted_key (ApiKey.id existing) token x))
                 key_slot)
        by (intros x; apply set_encrypted_key_slot).
      auto.
    + apply length_map.
  - destruct Hkeys as [Hid Hkeys]. rewrite Hkeys.
    assert (Hrow : slot_test uid p row = true)
      by (now apply slot_test_true).
    split; [|split; [|split; [|split; [|split]]]]; auto.
    + now rewrite (find_app_none _ _ row Hfind), Hrow.
    + intros uid' p' Hne. rewrite !query_api_key_find, Hkeys. f_equal.
      destruct (find (slot_test uid' p') (api_keys (db s))) as [y|] eqn:E.
      * now apply find_app_some.
      * rewrite (find_app_none _ _ row E).
        destruct (slot_test uid' p' row) eqn:E'; [|reflexivity].
        apply slot_test_true in E'. congruence.
    + unfold one_key_per_slot. rewrite Hkeys, map_app. simpl. intros Hnd.
      apply (Permutation_NoDup (Permutation_cons_append _ _)).
      constructor; [|exact Hnd].
      intros Hin. apply in_map_iff in Hin. destruct Hin as (x & Hx & Hin).
      pose proof (find_none _ _ Hfind x Hin) as Hno.
      rewrite Hslot in Hx. apply slot_test_true in Hx. congruence.
    + rewrite length_app. simpl. lia.
Qed.

Lemma create_api_key_then_lookup r new_id key_data current_user s token :
  fresh s ->
  encrypt_api_key F settings r (ApiKeyCreate.api_key key_data)
  = Return token ->
  exists row s',
    create_api_key F settings r new_id key_data current_user s
    = (Return row, s')
    /\ ApiKey.encrypted_key row = token
    /\ fst (query_api_key (User.id current_user)
                          (ApiKeyCreate.provider key_data) s')
       = Return (Some row).
Proof.
  intros Hfresh Henc.
  destruct (create_api_key_stores r new_id key_data current_user s token
              Hfresh Henc)
    as (row & s' & Hrun & Hslot & Htok & _ & _ & Hkeys).
  exists row, s'. split; [exact Hrun|]. split; [exact Htok|].
  rewrite query_api_key_find. f_equal.
  destruct (find _ (api_keys (db s))) as [existing|] eqn:Hfind.
  - destruct Hkeys as [Hrow Hkeys]. rewrite Hkeys.
    rewrite find_map_same, Hfind, Hrow; [reflexivity|].
    intros x. apply slot_test_set_encrypted_key.
  - destruct Hkeys as [_ Hkeys]. rewrite Hkeys.
    rewrite (find_app_none _ _ row Hfind).
    now replace (slot_test (User.id current_user)
                           (ApiKeyCreate.provider key_data) row)
      with true by (symmetry; now apply slot_test_true).
Qed.

(** X19. An API key stored through [create_api_key] is the key a chat turn
    will use: with a well-formed vault key and a Fernet primitive meeting
    its contract, the row the turn's lookup finds for the pair decrypts to
    exactly the API key that was submitted. *)
Theorem stored_key_is_the_key_used key fernet r new_id key_data current_user s :
  FernetContract F ->
  str_encode (ENCRYPTION_KEY settings) = Return key ->
  Fernet F key = Return fernet ->
  fresh s ->
  encodable (ApiKeyCreate.api_key key_data) ->
  exists row s',
    create_api_key F settings r new_id key_data current_user s
    = (Return row, s')
    /\ fst (query_api_key (User.id current_user)
                          (ApiKeyCreate.provider key_data) s')
       = Return (Some row)
    /\ decrypt_api_key F settings (ApiKey.encrypted_key row)
       = Return (ApiKeyCreate.api_key key_data).
Proof.
  intros HF Hkey Hfernet Hfresh Hx.
  destruct (round_trip F HF settings key fernet Hkey Hfernet r
              (ApiKeyCreate.api_key key_data) Hx) as (token & Henc & Hdec).
  destruct (create_api_key_then_lookup r new_id key_data current_user s token
              Hfresh Henc) as (row & s' & Hrun & Htok & Hq).
  exists row, s'. split; [exact Hrun|]. split; [exact Hq|].
  now rewrite Htok.
Qed.

(** X20. Deleting an API key: when the user has no key for the provider
    the route raises a 404 and changes nothing; otherwise, with a healthy
    store and a table that respects its primary key and its unique
    constraint, the pair has no key afterwards, the lookup of every other
    pair gives what it gave before, and conversations and messages are
    untouched. *)
Theorem delete_api_key_removes_one provider current_user s :
  (fst (query_api_key (User.id current_user) provider s) = Return None ->
   delete_api_key format_provider provider current_user s
   = (Raise (HTTPException HTTP_404_NOT_FOUND
               (Text (lit "No API key found for provider "
                      ++ format_provider provider))), s))
  /\ (forall api_key,
        fresh s ->
        NoDup (map ApiKey.id (api_keys (db s))) ->
        one_key_per_slot (db s) ->
        fst (query_api_key (User.id current_user) provider s)
        = Return (Some api_key) ->
        exists s',
          delete_api_key format_provider provider current_user s
          = (Return tt, s')
          /\ fst (query_api_key (User.id current_user) provider s')
             = Return None
          /\ (forall uid' p',
                (uid', p') <> (User.id current_user, provider) ->
                fst (query_api_key uid' p' s')
                = fst (query_api_key uid' p' s))
          /\ one_key_per_slot (db s')
          /\ conversations (db s') = conversations (db s)
          /\ messages (db s') = messages (db s)).
Proof.
  split.
  - intros Hq. unfold delete_api_key, bind.
    unfold query_api_key, get in *. simpl in Hq. injection Hq as ->.
    reflexivity.
  - intros api_key Hfresh Hpk Hslots Hq.
    rewrite query_api_key_find in Hq. injection Hq as Hfind.
    pose proof (find_some _ _ Hfind) as [Hin Hk].
    apply slot_test_true in Hk.
    eexists. split.
    + unfold delete_api_key. unfold bind at 1. unfold query_api_key, get.
      fold (slot_test (User.id current_user) provider). rewrite Hfind.
      unfold bind. rewrite (commit_key_change_ok _ _ Hfresh). reflexivity.
    + split; [|split; [|split; [|split]]]; try reflexivity.
      * rewrite query_api_key_find. simpl. f_equal.
        apply find_none_all. intros x Hx. apply filter_In in Hx.
        destruct Hx as [Hx Hid]. apply negb_true_iff, Z.eqb_neq in Hid.
        destruct (slot_test (User.id current_user) provider x) eqn:E;
          [|reflexivity].
        apply slot_test_true in E. exfalso. apply Hid. f_equal.
        apply (NoDup_map_eq key_slot _ x api_key Hslots Hx Hin). congruence.
      * intros uid' p' Hne. rewrite !query_api_key_find. simpl. f_equal.
        apply find_filter_keep. intros x Hx Hx'.
        apply slot_test_true in Hx'. apply negb_true_iff, Z.eqb_neq.
        intros Hid. apply Hne.
        rewrite (NoDup_map_eq ApiKey.id _ x api_key Hpk Hx Hin Hid) in Hx'.
        congruence.
      * unfold one_key_per_slot. simpl. now apply NoDup_map_filter.
Qed.

End KeyRoutes.

Lemma office_key_ids : NoDup (map ApiKey.id (api_keys (db Office.open_))).
Proof.
  simpl. constructor; [simpl; intros [H | []]; discriminate H|].
  constructor; [intros [] | constructor].
Qed.

Lemma office_key_slots : one_key_per_slot (db Office.open_).
Proof.
  unfold one_key_per_slot. simpl.
  constructor; [simpl; intros [H | []]; discriminate H|].
  constructor; [intros [] | constructor].
Qed.

Lemma create_api_key_upserts_witness :
  exists row s',
    create_api_key FakeFernet.lib Scenario.settings tt 3 Office.anthropic_key
                   Scenario.alice Office.open_
    = (Return row, s')
    /\ key_slot row = (1, ANTHROPIC)
    /\ ApiKey.encrypted_key row = Scenario.stored_token
    /\ fst (query_api_key 1 ANTHROPIC s') = Return (Some row)
    /\ List.length (api_keys (db s')) = 3%nat.
Proof.
  destruct (create_api_key_upserts FakeFernet.lib Scenario.settings tt 3
              Office.anthropic_key Scenario.alice Office.open_
              Scenario.stored_token
              (conj eq_refl eq_refl) office_key_ids eq_refl)
    as (row & s' & Hrun & Hslot & Htok & Hq & _ & _ & Hlen & _).
  exists row, s'. repeat split; assumption.
Defined.

Lemma stored_key_is_the_key_used_witness :
  exists row s',
    create_api_key FakeFernet.lib Scenario.settings tt 3 Office.anthropic_key
                   Scenario.alice Office.open_
    = (Return row, s')
    /\ fst (query_api_key 1 ANTHROPIC s') = Return (Some row)
    /\ decrypt_api_key FakeFernet.lib Scenario.settings
                       (ApiKey.encrypted_key row)
       = Return (lit "sk-test").
Proof.
  apply (stored_key_is_the_key_used FakeFernet.lib Scenario.settings
           [107%N] 107%N tt 3 Office.anthropic_key Scenario.alice
           Office.open_ FakeFernet_contract eq_refl eq_refl
           (conj eq_refl eq_refl) sk_test_encodable).
Defined.

Lemma delete_api_key_removes_one_witness :
  exists s',
    delete_api_key Office.format_provider OPENAI Scenario.alice Office.open_
    = (Return tt, s')
    /\ fst (query_api_key 1 OPENAI s') = Return None
    /\ fst (query_api_key 2 ANTHROPIC s') = Return (Some Office.bobs_key).
Proof.
  destruct (proj2 (delete_api_key_removes_one Office.format_provider OPENAI
                     Scenario.alice Office.open_)
              (Scenario.key_row Scenario.stored_token)
              (conj eq_refl eq_refl) office_key_ids office_key_slots eq_refl)
    as (s' & Hrun & Hgone & Hothers & _).
  exists s'. split; [exact Hrun|]. split; [exact Hgone|].
  rewrite (Hothers 2 ANTHROPIC); [reflexivity | discriminate].
Defined.

Lemma list_conversations_shows_own_only_witness :
  exists entries,
    list_conversations Scenario.alice 0 50 Office.open_
    = (Return entries, Office.open_)
    /\ map fst entries = [Office.conversation9; Scenario.conversation7]
    /\ map snd entries = [0%nat; 3%nat].
Proof.
  destruct (list_conversations_shows_own_only Scenario.alice 0 50
              Office.open_) as (entries & Hrun & _).
  exists entries. split; [exact Hrun|].
  vm_compute in Hrun. injection Hrun as <-. split; reflexivity.
Defined.

(** ** Failing commits outside the generator *)

Section FailingCommits.

Variable F : FernetLib.
Variable settings : Settings.
Variable sdk : SDK.
Variable service_chat :
  BaseAIService -> str -> list RoleContent -> AgentStream.

Variable request : ChatRequest.t.
Variable current_user : User.t.

(** X21. When the commit of the user message raises, both chat routes let
    that exception escape as it is, before any agent is created: no frame
    is sent, and no message is stored. *)
Theorem failed_user_commit_stores_nothing
    s conversation api_key_record api_key e rest :
  staged s = [] ->
  commit_outcomes s = Some e :: rest ->
  fst (query_conversation (ChatRequest.conversation_id request)
                          (User.id current_user) s)
  = Return (Some conversation) ->
  fst (query_api_key (User.id current_user)
                     (Conversation.provider conversation) s)
  = Return (Some api_key_record) ->
  decrypt_api_key F settings (ApiKey.encrypted_key api_key_record)
  = Return api_key ->
  post_stream F settings sdk service_chat request current_user s
  = Some (Raise e, after_failed_commit s)
  /\ chat_message F settings sdk service_chat request current_user s
     = (Raise e, after_failed_commit s)
  /\ db (after_failed_commit s) = db s.
Proof.
  intros Hst Hco Hc Hk Hd.
  assert (Hopen : open_turn F settings sdk request current_user s
                  = (Raise e, after_failed_commit s)).
  { unfold open_turn, bind.
    rewrite (owned_conversation_found _ _ _ _ Hc).
    unfold query_api_key, get in *. simpl in Hk. injection Hk as ->.
    unfold lift. rewrite Hd.
    unfold load_history, bind, get, ret, stage, commit, after_failed_commit;
      simpl.
    rewrite Hco. reflexivity. }
  unfold post_stream, chat_stream, chat_message, bind. rewrite Hopen.
  repeat split; reflexivity.
Qed.

(** X22. In blocking mode, when the agent's stream ends cleanly but the
    commit of the assistant message raises, that exception escapes as it
    is, and the user message is the only row the request has added; the
    response text is lost. *)
Theorem blocking_reply_commit_failure s s1 service history e rest :
  staged s = [] ->
  commit_outcomes s = None :: Some e :: rest ->
  open_turn F settings sdk request current_user s
  = (Return (service, history), s1) ->
  failure (service_chat service (ChatRequest.message request) history)
  = None ->
  exists s',
    chat_message F settings sdk service_chat request current_user s
    = (Raise e, s')
    /\ appended s s' [sent_message s request]
    /\ staged s' = [].
Proof.
  intros Hst Hco Hopen Hclean.
  assert (Hhd : hd None (commit_outcomes s) = None) by (now rewrite Hco).
  destruct (open_turn_returns F settings sdk request current_user
              s s1 service history Hst Hhd Hopen) as [Hs1 _].
  unfold chat_message. unfold bind at 1. rewrite Hopen.
  unfold bind at 1. unfold try_except.
  rewrite (collect_runs _ [] s1), Hclean.
  rewrite (persist_fails
             (fun message_id =>
                ret ([] ++ full_text
                             (service_chat service
                                (ChatRequest.message request) history),
                     message_id))
             _ _ _ _ e rest).
  - eexists. split; [reflexivity|]. rewrite Hs1. split; reflexivity.
  - rewrite Hs1. simpl. now rewrite Hco.
Qed.

End FailingCommits.

Lemma failed_user_commit_stores_nothing_witness :
  post_stream FakeFernet.lib Scenario.settings Scenario.lenient
    (Scenario.answers Scenario.hello_there) Scenario.Hi Scenario.alice
    (Scenario.session (Scenario.database
                         [Scenario.key_row Scenario.stored_token] [])
       [Some (DatabaseError (lit "server has gone away"))])
  = Some (Raise (DatabaseError (lit "server has gone away")),
          after_failed_commit
            (Scenario.session (Scenario.database
                         [Scenario.key_row Scenario.stored_token] [])
       [Some (DatabaseError (lit "server has gone away"))]))
  /\ chat_message FakeFernet.lib Scenario.settings Scenario.lenient
       (Scenario.answers Scenario.hello_there) Scenario.Hi Scenario.alice
       (Scenario.session (Scenario.database
                         [Scenario.key_row Scenario.stored_token] [])
       [Some (DatabaseError (lit "server has gone away"))])
     = (Raise (DatabaseError (lit "server has gone away")),
        after_failed_commit
          (Scenario.session (Scenario.database
                         [Scenario.key_row Scenario.stored_token] [])
       [Some (DatabaseError (lit "server has gone away"))]))
  /\ db (after_failed_commit
           (Scenario.session (Scenario.database
                         [Scenario.key_row Scenario.stored_token] [])
       [Some (DatabaseError (lit "server has gone away"))]))
     = db (Scenario.session (Scenario.database
                         [Scenario.key_row Scenario.stored_token] [])
       [Some (DatabaseError (lit "server has gone away"))]).
Proof.
  apply (failed_user_commit_stores_nothing FakeFernet.lib Scenario.settings
           Scenario.lenient
           (Scenario.answers Scenario.hello_there) Scenario.Hi Scenario.alice
           (Scenario.session (Scenario.database
                         [Scenario.key_row Scenario.stored_token] [])
       [Some (DatabaseError (lit "server has gone away"))])
           Scenario.conversation7 (Scenario.key_row Scenario.stored_token)
           (lit "sk-test") (DatabaseError (lit "server has gone away")) []);
    reflexivity.
Defined.

Lemma blocking_reply_commit_failure_witness :
  exists s',
    chat_message FakeFernet.lib Scenario.settings Scenario.lenient
      (Scenario.answers Scenario.hello_there) Scenario.Hi Scenario.alice
      Scenario.flaky
    = (Raise (DatabaseError (lit "server has gone away")), s')
    /\ appended Scenario.flaky s' [sent_message Scenario.flaky Scenario.Hi]
    /\ staged s' = [].
Proof.
  apply (blocking_reply_commit_failure FakeFernet.lib Scenario.settings
           Scenario.lenient
           (Scenario.answers Scenario.hello_there) Scenario.Hi Scenario.alice
           Scenario.flaky
           (after_insert Scenario.flaky 7 USER (lit "Hi"))
           (OpenAIDirectService (lit "sk-test") (lit "gpt-4-turbo-preview"))
           [] (DatabaseError (lit "server has gone away")) []);
    reflexivity.
Defined.
